(** * FiftyOne operator execution: a shallow embedding of
      [fiftyone/operators/executor.py]

    The development follows the layout of the Python module: Python values
    and exceptions, the schema types the validator consumes, the
    [ValidationContext] engine, [Executor] / [ExecutionContext], the
    [ExecutionResult] envelope and the [execute_or_delegate_operator]
    coordinator.  Theorems come after all definitions. *)

From Stdlib Require Import ZArith QArith Bool Ascii String DecimalString.
From stdpp Require Import gmap strings list fin_maps.

Set Warnings "-register-all".

Open Scope list_scope.
Open Scope string_scope.

(* ===================================================================== *)
(** ** Python values *)
(* ===================================================================== *)

(** The values operator parameters are made of.  A [dict] keeps its
    insertion order, so it is an association list (keys are strings, as in
    the JSON the App sends).  A finite [float] is the rational it denotes. *)
Inductive value : Type :=
| VNone
| VBool (b : bool)
| VInt (n : Z)
| VFloat (q : Q)
| VStr (s : string)
| VList (items : list value)
| VDict (items : list (string * value)).

(** [type(value).__name__] *)
Definition type_name_of (v : value) : string :=
  match v with
  | VNone => "NoneType"
  | VBool _ => "bool"
  | VInt _ => "int"
  | VFloat _ => "float"
  | VStr _ => "str"
  | VList _ => "list"
  | VDict _ => "dict"
  end.

(** [value is None] *)
Definition is_None (v : value) : bool :=
  match v with VNone => true | _ => false end.

(** [bool(value)] *)
Definition truthy (v : value) : bool :=
  match v with
  | VNone => false
  | VBool b => b
  | VInt n => negb (n =? 0)%Z
  | VFloat q => negb (Qeq_bool q 0)
  | VStr s => negb (String.eqb s "")
  | VList l => match l with [] => false | _ => true end
  | VDict d => match d with [] => false | _ => true end
  end.

(** [d.get(name)] on the items of a dict. *)
Fixpoint dict_lookup {A : Type} (name : string) (d : list (string * A)) : option A :=
  match d with
  | [] => None
  | (k, v) :: rest => if String.eqb k name then Some v else dict_lookup name rest
  end.

(** [d[name] = v]: an existing key keeps its position, a new one goes last. *)
Fixpoint dict_set {A : Type} (name : string) (v : A) (d : list (string * A)) : list (string * A) :=
  match d with
  | [] => [(name, v)]
  | (k, w) :: rest =>
      if String.eqb k name then (k, v) :: rest else (k, w) :: dict_set name v rest
  end.

(** The number a [bool], [int] or [float] denotes; [==] compares these
    across the three types ([True == 1 == 1.0]). *)
Definition numeric (v : value) : option Q :=
  match v with
  | VBool b => Some (inject_Z (if b then 1 else 0))
  | VInt n => Some (inject_Z n)
  | VFloat q => Some q
  | _ => None
  end.

(** [a == b] *)
Fixpoint py_eq (a b : value) {struct a} : bool :=
  match a, b with
  | VNone, VNone => true
  | VStr s, VStr t => String.eqb s t
  | VList xs, VList ys =>
      (fix list_eq (xs ys : list value) {struct xs} : bool :=
         match xs, ys with
         | [], [] => true
         | x :: xs', y :: ys' => py_eq x y && list_eq xs' ys'
         | _, _ => false
         end) xs ys
  | VDict d, VDict d' =>
      Nat.eqb (length d) (length d') &&
      (fix dict_sub (d : list (string * value)) {struct d} : bool :=
         match d with
         | [] => true
         | (k, x) :: rest =>
             match dict_lookup k d' with
             | Some y => py_eq x y && dict_sub rest
             | None => false
             end
         end) d
  | _, _ =>
      match numeric a, numeric b with
      | Some p, Some q => Qeq_bool p q
      | _, _ => false
      end
  end.

(** [value in values] *)
Definition py_in (v : value) (values : list value) : bool :=
  existsb (fun x => py_eq x v) values.

(** [str(i)] for a list index. *)
Definition str_of_nat (i : nat) : string :=
  NilZero.string_of_uint (Nat.to_uint i).

(** [s.lstrip(".")] *)
Fixpoint lstrip_dot (s : string) : string :=
  match s with
  | String "."%char rest => lstrip_dot rest
  | _ => s
  end.

(* ===================================================================== *)
(** ** Exceptions *)
(* ===================================================================== *)

(** The exception classes that occur.  [ExecutionError] is the class this
    module declares; the last three derive from [BaseException] only. *)
Inductive exn_class : Type :=
| ValueError
| AttributeError
| KeyError
| IndexError
| TypeError
| ExecutionError
| OtherException (name : string)
| KeyboardInterrupt
| SystemExit
| CancelledError.

Record exn : Type := mk_exn {
  exn_cls : exn_class;
  exn_msg : string
}.

(** [isinstance(e, Exception)]: what an [except Exception] clause catches. *)
Definition is_Exception (e : exn) : bool :=
  match exn_cls e with
  | KeyboardInterrupt | SystemExit | CancelledError => false
  | _ => true
  end.

Definition exn_class_name (c : exn_class) : string :=
  match c with
  | ValueError => "ValueError"
  | AttributeError => "AttributeError"
  | KeyError => "KeyError"
  | IndexError => "IndexError"
  | TypeError => "TypeError"
  | ExecutionError => "ExecutionError"
  | OtherException name => name
  | KeyboardInterrupt => "KeyboardInterrupt"
  | SystemExit => "SystemExit"
  | CancelledError => "CancelledError"
  end.

Definition newline : string := String (Ascii.ascii_of_nat 10) "".

(** [traceback.format_exc()] inside an [except] clause handling [e]: the
    header, the stack frames (left out here) and the final
    [Class: message] line. *)
Definition format_exc (e : exn) : string :=
  "Traceback (most recent call last):" ++ newline ++
  exn_class_name (exn_cls e) ++ ": " ++ exn_msg e ++ newline.

(** [str(e)] *)
Definition str_of_exn (e : exn) : string := exn_msg e.

(** The [AttributeError] Python raises for [obj.attr] on an object without
    that attribute. *)
Definition no_attribute (type_name attr : string) : exn :=
  mk_exn AttributeError ("'" ++ type_name ++ "' object has no attribute '" ++ attr ++ "'").

(* ===================================================================== *)
(** ** A state-and-exception monad *)
(* ===================================================================== *)

(** A Python call either returns a value or raises. *)
Inductive outcome (A : Type) : Type :=
| Returned (a : A)
| Raised (e : exn).
Arguments Returned {A} a.
Arguments Raised {A} e.

(** A computation over the mutable state [S]. *)
Definition St (S A : Type) : Type := S -> outcome A * S.

Definition ret {S A : Type} (a : A) : St S A := fun s => (Returned a, s).

Definition raise {S A : Type} (e : exn) : St S A := fun s => (Raised e, s).

Definition bind {S A B : Type} (m : St S A) (k : A -> St S B) : St S B :=
  fun s =>
    match m s with
    | (Returned a, s') => k a s'
    | (Raised e, s') => (Raised e, s')
    end.

Notation "x <- m ;; k" := (bind m (fun x => k))
  (at level 100, m at next level, right associativity).
Notation "m ;;; k" := (bind m (fun _ => k))
  (at level 100, right associativity).

(** [try: body  except Exception: handler]: only instances of [Exception]
    are caught. *)
Definition try_except {S A : Type} (body : St S A) (handler : exn -> St S A) : St S A :=
  fun s =>
    match body s with
    | (Returned a, s') => (Returned a, s')
    | (Raised e, s') => if is_Exception e then handler e s' else (Raised e, s')
    end.

(** Lifts an [outcome] that does not touch the state. *)
Definition lift_outcome {S A : Type} (o : outcome A) : St S A := fun s => (o, s).

Definition get_state {S : Type} : St S S := fun s => (Returned s, s).
Definition put_state {S : Type} (s : S) : St S unit := fun _ => (Returned tt, s).

(** [for x in l: body(x)] *)
Definition for_each {S A : Type} (body : A -> St S unit) : list A -> St S unit :=
  fix loop (l : list A) : St S unit :=
    match l with
    | [] => ret tt
    | x :: rest => body x ;;; loop rest
    end.

(** [for i in range(len(l)): body(i, l[i])], counting from [i]. *)
Definition for_each_index {T A : Type} (body : nat -> A -> St T unit)
  : nat -> list A -> St T unit :=
  fix loop (i : nat) (l : list A) : St T unit :=
    match l with
    | [] => ret tt
    | x :: rest => body i x ;;; loop (S i) rest
    end.

(* ===================================================================== *)
(** ** Schema types ([fiftyone.operators.types]) *)
(* ===================================================================== *)

Module types.

(** Modelled from the spec: the module [fiftyone/operators/types.py] is not
    among the sources.  A schema node is a [Property]: a type together with
    [required], [invalid] and the [error_message] it carries.  The type is
    an [Enum] with its allowed values, an [Object] with its named child
    properties in declaration order, a [List] with its single element type,
    or any other class ([String], [Number], [Boolean], ...), which the
    validator tells apart by class name. *)
Inductive type_ : Type :=
| Enum (values : list value)
| Object (properties : list (string * Property))
| List (element_type : type_)
| BaseType (class_name : string)
with Property : Type :=
| Build_Property (type : type_) (required invalid : bool) (error_message : string).

Definition type (p : Property) : type_ :=
  match p with Build_Property t _ _ _ => t end.
Definition required (p : Property) : bool :=
  match p with Build_Property _ r _ _ => r end.
Definition invalid (p : Property) : bool :=
  match p with Build_Property _ _ i _ => i end.
Definition error_message (p : Property) : string :=
  match p with Build_Property _ _ _ m => m end.

(** [property.type.__class__.__name__] *)
Definition class_name_of (t : type_) : string :=
  match t with
  | Enum _ => "Enum"
  | Object _ => "Object"
  | List _ => "List"
  | BaseType name => name
  end.

(** Modelled from the spec: [types.Property(element_type)], the constructor
    called with a type alone, gives an optional node that is not marked
    invalid ("each optionally required/invalid-with-message"); the text of
    its default message is not used by any statement below. *)
Definition new_Property (t : type_) : Property :=
  Build_Property t false false "Invalid property".

End types.

(* ===================================================================== *)
(** ** Messages ([fiftyone.operators.message]) *)
(* ===================================================================== *)

Module message.

(** Modelled from the spec: the module [fiftyone/operators/message.py] is
    not among the sources.  [trigger] "returns a success-tagged message
    wrapping the request": a message has a type tag, the class of its body
    and the body itself. *)
Inductive MessageType : Type := SUCCESS | ERROR.

Record GeneratedMessage (Body : Type) : Type := Build_GeneratedMessage {
  type : MessageType;
  cls : string;
  body : Body
}.
Arguments Build_GeneratedMessage {Body} _ _ _.
Arguments type {Body} _.
Arguments cls {Body} _.
Arguments body {Body} _.

End message.

(* ===================================================================== *)
(** ** [InvocationRequest] and [Executor] *)
(* ===================================================================== *)

Module InvocationRequest.

Record t : Type := Build {
  operator_uri : string;
  params : value
}.

(** [InvocationRequest(operator_uri, params=None)]: [params or {}]. *)
Definition __init__ (operator_uri : string) (params : value) : t :=
  {| operator_uri := operator_uri;
     params := if truthy params then params else VDict [] |}.

Definition to_json (self : t) : value :=
  VDict [("operator_uri", VStr (operator_uri self)); ("params", params self)].

End InvocationRequest.

(** Executors are mutable objects shared between the coordinator, the
    execution context handed to the operator and the result envelope: they
    live in a store and are named by their index in it. *)
Definition loc : Type := nat.

(** Python cannot hold a reference to an object that is not in the store;
    the model answers such a reference with this exception. *)
Definition dangling_reference : exn :=
  mk_exn (OtherException "ReferenceError") "no such object".

Module Executor.

Record t : Type := Build {
  _requests : list InvocationRequest.t;
  _logs : list value
}.

(** [Executor(requests=None, logs=None)]: [requests or []], [logs or []]. *)
Definition __init__ (requests : option (list InvocationRequest.t))
    (logs : option (list value)) : t :=
  {| _requests := default [] requests; _logs := default [] logs |}.

(** [Executor()] as an expression: the new object enters the store. *)
Definition new : St (list t) loc :=
  fun h => (Returned (length h), (h ++ [__init__ None None])%list).

(** [self.trigger(operator_name, params)] *)
Definition trigger (self : loc) (operator_name : string) (params : value)
  : St (list t) (message.GeneratedMessage InvocationRequest.t) :=
  fun h =>
    match h !! self with
    | None => (Raised dangling_reference, h)
    | Some ex =>
        let inv_req := InvocationRequest.__init__ operator_name params in
        (Returned (message.Build_GeneratedMessage message.SUCCESS "InvocationRequest" inv_req),
         <[self := {| _requests := _requests ex ++ [inv_req]; _logs := _logs ex |}]> h)
    end.

(** [self.log(message)] *)
Definition log (self : loc) (msg : value) : St (list t) unit :=
  fun h =>
    match h !! self with
    | None => (Raised dangling_reference, h)
    | Some ex =>
        (Returned tt,
         <[self := {| _requests := _requests ex; _logs := _logs ex ++ [msg] |}]> h)
    end.

Definition to_json (self : t) : value :=
  VDict [("requests", VList (map InvocationRequest.to_json (_requests self)));
         ("logs", VList (_logs self))].

End Executor.

(** The store of executors. *)
Abbreviation heap := (list Executor.t).

(* ===================================================================== *)
(** ** Secrets ([fiftyone.plugins.secrets]) *)
(* ===================================================================== *)

Module secrets.

(** Modelled from the spec: the secrets resolver is an external
    collaborator, "getSecret(key, authArgs) -> {key, value} | absent"; the
    call may also fail. *)
Record Secret : Type := Build_Secret {
  key : string;
  value : string
}.

Record PluginSecretsResolver : Type := Build_PluginSecretsResolver {
  get_secret : string -> outcome (option Secret)
}.

End secrets.

(* ===================================================================== *)
(** ** [ExecutionContext] *)
(* ===================================================================== *)

Module ExecutionContext.

Record t : Type := Build {
  request_params : list (string * value);
  params : value;
  executor : option loc;
  _secrets : gmap string string;
  _secrets_client : secrets.PluginSecretsResolver
}.

(** [ExecutionContext(request_params=None, executor=None)].  The secrets
    client, which the source builds with [PluginSecretsResolver()], is
    handed in. *)
Definition __init__ (client : secrets.PluginSecretsResolver)
    (request_params : option (list (string * value))) (executor : option loc) : t :=
  let request_params :=
    match request_params with
    | Some (x :: rest) => x :: rest
    | _ => []
    end in
  {| request_params := request_params;
     params := default (VDict []) (dict_lookup "params" request_params);
     executor := executor;
     _secrets := ∅;
     _secrets_client := client |}.

Definition results (self : t) : value :=
  default (VDict []) (dict_lookup "results" (request_params self)).

Definition delegated (self : t) : value :=
  default (VBool false) (dict_lookup "delegated" (request_params self)).

Definition selected (self : t) : value :=
  default (VList []) (dict_lookup "selected" (request_params self)).

Definition selected_labels (self : t) : value :=
  default (VList []) (dict_lookup "selected_labels" (request_params self)).

Definition dataset_name (self : t) : value :=
  default VNone (dict_lookup "dataset_name" (request_params self)).

Definition dataset_id (self : t) : value :=
  default VNone (dict_lookup "dataset_id" (request_params self)).

(** [self.trigger(operator_name, params=None)] *)
Definition trigger (self : t) (operator_name : string) (params : value)
  : St heap (message.GeneratedMessage InvocationRequest.t) :=
  match executor self with
  | None => raise (mk_exn ValueError "No executor available")
  | Some ex => Executor.trigger ex operator_name params
  end.

(** [self.log(message)] *)
Definition log (self : t) (msg : value) : St heap unit :=
  trigger self "console_log" (VDict [("message", msg)]) ;;; ret tt.

(** [self.secret(key)] *)
Definition secret (self : t) (key : string) : option string :=
  _secrets self !! key.

Definition secrets (self : t) : gmap string string := _secrets self.

(** One turn of the loop of [resolve_secret_values]:
    [secret = await self._secrets_client.get_secret(key)] and, when the
    secret is there, [self._secrets[secret.key] = secret.value]. *)
Definition resolve_secret_value (key : string) : St t unit :=
  self <- get_state ;;
  secret <- lift_outcome (secrets.get_secret (_secrets_client self) key) ;;
  match secret with
  | Some secret =>
      put_state
        {| request_params := request_params self;
           params := params self;
           executor := executor self;
           _secrets := <[secrets.key secret := secrets.value secret]> (_secrets self);
           _secrets_client := _secrets_client self |}
  | None => ret tt
  end.

(** [await self.resolve_secret_values(keys)]; the context itself is the
    state that is updated. *)
Definition resolve_secret_values (keys : option (list string)) : St t unit :=
  match keys with
  | None => ret tt
  | Some keys => for_each resolve_secret_value keys
  end.

(** [self.serialize()] *)
Definition serialize (self : t) : value :=
  VDict [("request_params", VDict (request_params self)); ("params", params self)].

End ExecutionContext.

(* ===================================================================== *)
(** ** Operators ([fiftyone.operators.operator]) *)
(* ===================================================================== *)

Module operator.

Record OperatorConfig : Type := Build_OperatorConfig {
  disable_schema_validation : bool
}.

(** Modelled from the spec: operators are external; the coordinator uses
    the capability set "resolveInput(ctx)->schema, resolveDelegation(ctx)->
    bool, delegationTarget, execute(ctx)->value, resolveType(ctx,target)->
    schema, resolvePlacement(ctx)->placement, pluginSecretKeys,
    config.disableSchemaValidation".  Operator code runs against the store
    of executors (it reaches its executor through [ctx.trigger]) and may
    raise. *)
Record Operator : Type := Build_Operator {
  uri : string;
  config : OperatorConfig;
  _plugin_secrets : option (list string);
  delegation_target : value;
  resolve_input : ExecutionContext.t -> St heap (option types.Property);
  resolve_delegation : ExecutionContext.t -> St heap bool;
  execute_is_coroutine : bool;
  execute : ExecutionContext.t -> St heap value;
  resolve_type : ExecutionContext.t -> value -> St heap (option types.Property);
  resolve_placement : ExecutionContext.t -> St heap value
}.

End operator.

(* ===================================================================== *)
(** ** [ValidationError] and [ValidationContext] *)
(* ===================================================================== *)

Module ValidationError.

Record t : Type := Build {
  reason : string;
  error_message : string;
  path : string;
  custom : bool
}.

(** [ValidationError(reason, property, path, custom=False)] *)
Definition __init__ (reason : string) (property : types.Property) (path : string)
    (custom : bool) : t :=
  {| reason := reason;
     error_message := types.error_message property;
     path := path;
     custom := custom |}.

Definition to_json (self : t) : value :=
  VDict [("reason", VStr (reason self));
         ("error_message", VStr (error_message self));
         ("path", VStr (path self));
         ("custom", VBool (custom self))].

End ValidationError.

Module ValidationContext.

Record t : Type := Build {
  ctx : ExecutionContext.t;
  params : value;
  inputs_property : option types.Property;
  errors : list ValidationError.t;
  disable_schema_validation : bool;
  invalid : bool
}.

Definition set_errors (errs : list ValidationError.t) (self : t) : t :=
  {| ctx := ctx self;
     params := params self;
     inputs_property := inputs_property self;
     errors := errs;
     disable_schema_validation := disable_schema_validation self;
     invalid := invalid self |}.

Definition set_invalid (b : bool) (self : t) : t :=
  {| ctx := ctx self;
     params := params self;
     inputs_property := inputs_property self;
     errors := errors self;
     disable_schema_validation := disable_schema_validation self;
     invalid := b |}.

(** The methods run with [self] as their state. *)
Abbreviation V := (St t).

(** [self.add_error(error)] *)
Definition add_error (error : ValidationError.t) : V unit :=
  fun self =>
    if disable_schema_validation self && negb (ValidationError.custom error)
    then (Returned tt, self)
    else (Returned tt, set_errors (errors self ++ [error]) self).

(** [if validation_error is not None: self.add_error(validation_error)] *)
Definition add_error_if_any (validation_error : option ValidationError.t) : V unit :=
  match validation_error with
  | Some e => add_error e
  | None => ret tt
  end.

(** [self.validate_enum(path, property, value)], with [values] the
    [property.type.values]. *)
Definition validate_enum_values (values : list value) (path : string)
    (property : types.Property) (value : value) : V (option ValidationError.t) :=
  if negb (py_in value values)
  then ret (Some (ValidationError.__init__ "Invalid enum value" property path false))
  else ret None.

(** [self.validate_primitive(path, property, value)], with [type_name] the
    [property.type.__class__.__name__]. *)
Definition validate_primitive_named (type_name : string) (path : string)
    (property : types.Property) (value : value) : V (option ValidationError.t) :=
  let value_type := type_name_of value in
  if String.eqb type_name "String" && negb (String.eqb value_type "str")
  then ret (Some (ValidationError.__init__ "Invalid value type" property path false))
  else if String.eqb type_name "Number" &&
          (negb (String.eqb value_type "int") && negb (String.eqb value_type "float"))
  then ret (Some (ValidationError.__init__ "Invalid value type" property path false))
  else if String.eqb type_name "Boolean" && negb (String.eqb value_type "bool")
  then ret (Some (ValidationError.__init__ "Invalid value type" property path false))
  else ret None.

(** [value.get(name, None)]: only a dict has [get]. *)
Definition value_get (v : value) (name : string) : V value :=
  match v with
  | VDict items => ret (default VNone (dict_lookup name items))
  | _ => raise (no_attribute (type_name_of v) "get")
  end.

(** The recursion of [validate_property], [validate_object] and
    [validate_list] through the schema, on the type [t] of [property].
    The three methods are defined from it below and
    [validate_property_eq], [validate_object_eq] and [validate_list_eq]
    give them the shape they have in the source. *)
Fixpoint validate_node (t : types.type_) (path : string) (property : types.Property)
    (value : value) {struct t} : V (option ValidationError.t) :=
  if types.invalid property
  then ret (Some (ValidationError.__init__ (types.error_message property) property path true))
  else if types.required property && is_None value
  then ret (Some (ValidationError.__init__ "Required property" property path false))
  else if negb (is_None value)
  then
    match t with
    | types.Enum values => validate_enum_values values path property value
    | types.Object properties =>
        if is_None value
        then ret (Some (ValidationError.__init__ "Invalid object" property path false))
        else
          for_each
            (fun '(name, property) =>
               propertyValue <- value_get value name ;;
               validation_error <-
                 validate_node (types.type property) (path ++ "." ++ name)
                   property propertyValue ;;
               add_error_if_any validation_error)
            properties ;;;
          ret None
    | types.List element_type =>
        match value with
        | VList items =>
            for_each_index
              (fun i item =>
                 let item_path := path ++ "[" ++ str_of_nat i ++ "]" in
                 let item_property := types.new_Property element_type in
                 validation_error <-
                   validate_node element_type item_path item_property item ;;
                 add_error_if_any validation_error)
              0 items ;;;
            ret None
        | _ => ret (Some (ValidationError.__init__ "Invalid list" property path false))
        end
    | types.BaseType type_name => validate_primitive_named type_name path property value
    end
  else ret None.

(** [self.validate_property(path, property, value)] *)
Definition validate_property (path : string) (property : types.Property) (value : value)
  : V (option ValidationError.t) :=
  validate_node (types.type property) path property value.

(** [self.validate_enum(path, property, value)] *)
Definition validate_enum (path : string) (property : types.Property) (value : value)
  : V (option ValidationError.t) :=
  match types.type property with
  | types.Enum values => validate_enum_values values path property value
  | enum => raise (no_attribute (types.class_name_of enum) "values")
  end.

(** [self.validate_object(path, property, value)] *)
Definition validate_object (path : string) (property : types.Property) (value : value)
  : V (option ValidationError.t) :=
  let propertyType := types.type property in
  if is_None value
  then ret (Some (ValidationError.__init__ "Invalid object" property path false))
  else
    match propertyType with
    | types.Object properties =>
        for_each
          (fun '(name, property) =>
             propertyValue <- value_get value name ;;
             validation_error <-
               validate_property (path ++ "." ++ name) property propertyValue ;;
             add_error_if_any validation_error)
          properties ;;;
        ret None
    | _ => raise (no_attribute (types.class_name_of propertyType) "properties")
    end.

(** [self.validate_list(path, property, value)] *)
Definition validate_list (path : string) (property : types.Property) (value : value)
  : V (option ValidationError.t) :=
  match value with
  | VList items =>
      match types.type property with
      | types.List element_type =>
          for_each_index
            (fun i item =>
               let item_path := path ++ "[" ++ str_of_nat i ++ "]" in
               let item_property := types.new_Property element_type in
               validation_error <- validate_property item_path item_property item ;;
               add_error_if_any validation_error)
            0 items ;;;
          ret None
      | t => raise (no_attribute (types.class_name_of t) "element_type")
      end
  | _ => ret (Some (ValidationError.__init__ "Invalid list" property path false))
  end.

(** [self.validate_primitive(path, property, value)] *)
Definition validate_primitive (path : string) (property : types.Property) (value : value)
  : V (option ValidationError.t) :=
  validate_primitive_named (types.class_name_of (types.type property)) path property value.

(** [self._validate()] *)
Definition _validate : V (list ValidationError.t) :=
  self <- get_state ;;
  let params := params self in
  match inputs_property self with
  | None => raise (no_attribute "NoneType" "invalid")
  | Some inputs_property =>
      validation_error <- validate_property "" inputs_property params ;;
      add_error_if_any validation_error ;;;
      self <- get_state ;;
      ret (errors self)
  end.

(** [ValidationContext(ctx, inputs_property, operator)] *)
Definition __init__ (ctx : ExecutionContext.t) (inputs_property : option types.Property)
    (operator : operator.Operator) : outcome t :=
  let self :=
    {| ctx := ctx;
       params := ExecutionContext.params ctx;
       inputs_property := inputs_property;
       errors := [];
       disable_schema_validation :=
         operator.disable_schema_validation (operator.config operator);
       invalid := false |} in
  match inputs_property with
  | None => Returned (set_invalid false self)
  | Some _ =>
      match _validate self with
      | (Returned errs, self) =>
          let self := set_errors errs self in
          Returned (set_invalid (0 <? length (errors self))%nat self)
      | (Raised e, _) => Raised e
      end
  end.

Definition to_json (self : t) : value :=
  VDict [("invalid", VBool (invalid self));
         ("errors", VList (map ValidationError.to_json (errors self)))].

End ValidationContext.

(* ===================================================================== *)
(** ** [ExecutionResult] and [ExecutionError] *)
(* ===================================================================== *)

Module ExecutionResult.

(** What [result] can hold: the raw return value of an operator, or the
    attribute dictionary ([op.__dict__]) of a queued delegated operation,
    whose ["context"] entry is an execution context until it is serialized. *)
Inductive attr : Type :=
| AValue (v : value)
| AContext (c : ExecutionContext.t).

Inductive result_t : Type :=
| RValue (v : value)
| RAttrs (d : list (string * attr)).

Record t : Type := Build {
  result : result_t;
  executor : option loc;
  error : option string;
  validation_ctx : option ValidationContext.t;
  delegated : bool
}.

(** [ExecutionResult(result=None, executor=None, error=None,
    validation_ctx=None, delegated=False)] *)
Definition __init__ (result : result_t) (executor : option loc) (error : option string)
    (validation_ctx : option ValidationContext.t) (delegated : bool) : t :=
  {| result := result;
     executor := executor;
     error := error;
     validation_ctx := validation_ctx;
     delegated := delegated |}.

(** [ExecutionError(msg)] *)
Definition ExecutionError_of (msg : option string) : exn :=
  mk_exn ExecutionError (default "None" msg).

(** [self.to_exception()]: the exception it returns, unless building it
    raises. *)
Definition to_exception (self : t) : outcome exn :=
  let msg := error self in
  match validation_ctx self with
  | None => Raised (no_attribute "NoneType" "invalid")
  | Some validation_ctx =>
      if ValidationContext.invalid validation_ctx
      then
        match ValidationContext.errors validation_ctx with
        | [] => Raised (mk_exn IndexError "list index out of range")
        | val_error :: _ =>
            let path := lstrip_dot (ValidationError.path val_error) in
            let reason := ValidationError.reason val_error in
            match msg with
            | None =>
                Raised (mk_exn TypeError
                  "unsupported operand type(s) for +=: 'NoneType' and 'str'")
            | Some msg =>
                Returned (ExecutionError_of
                  (Some (msg ++ ". Path: " ++ path ++ ". Reason: " ++ reason)))
            end
        end
      else Returned (ExecutionError_of msg)
  end.

End ExecutionResult.

(* ===================================================================== *)
(** ** External collaborators of the coordinator *)
(* ===================================================================== *)

Module registry.

(** Modelled from the spec: the registry ([fiftyone/operators/registry.py])
    is not among the sources; it offers "exists(uri) -> bool, get(uri) ->
    Operator" over the registered operators. *)
Record OperatorRegistry : Type := Build_OperatorRegistry {
  list_operators : list operator.Operator
}.

Definition operator_exists (self : OperatorRegistry) (operator_uri : string) : bool :=
  existsb (fun o => String.eqb operator_uri (operator.uri o)) (list_operators self).

Definition get_operator (self : OperatorRegistry) (operator_uri : string)
  : option operator.Operator :=
  find (fun o => String.eqb operator_uri (operator.uri o)) (list_operators self).

End registry.

Module delegated.

(** Modelled from the spec: the delegated-operation queue
    ([fiftyone/operators/delegated.py]) is not among the sources;
    "queueOperation(operatorUri, serializedContext, delegationTarget) ->
    queuedJobSnapshot (fields include an embeddable context, later
    re-serialized)".  The document it returns is seen through its attribute
    dictionary; queueing may fail. *)
Record DelegatedOperationDocument : Type := Build_DelegatedOperationDocument {
  __dict__ : list (string * ExecutionResult.attr)
}.

Record DelegatedOperationService : Type := Build_DelegatedOperationService {
  queue_operation :
    string -> value -> value -> outcome DelegatedOperationDocument
}.

End delegated.

(** Everything the module reaches through imports and constructors. *)
Record Env : Type := Build_Env {
  OperatorRegistry : registry.OperatorRegistry;
  PluginSecretsResolver : secrets.PluginSecretsResolver;
  DelegatedOperationService : delegated.DelegatedOperationService
}.

(** Modelled from the spec: [fou.run_sync_task] ([fiftyone/core/utils.py])
    is not among the sources; "the coordinator bridges both forms
    [synchronous or suspendable] into one awaited outcome", so awaiting it
    is the call itself. *)
Definition run_sync_task {T A B : Type} (func : A -> St T B) (arg : A) : St T B :=
  func arg.

(** The calls the coordinator makes into operator and collaborator code. *)
Inductive call : Type :=
| call_operator_exists (operator_uri : string)
| call_get_operator (operator_uri : string)
| call_resolve_secret_values
| call_resolve_input
| call_resolve_delegation
| call_queue_operation
| call_execute.

(** The state of one invocation: the store of executors and the log of
    the calls made so far. *)
Record World : Type := Build_World {
  executors : heap;
  calls : list call
}.

(** Records the call [c] and runs [m] on the store. *)
Definition calling {A : Type} (c : call) (m : St heap A) : St World A :=
  fun w =>
    let (o, h) := m (executors w) in
    (o, {| executors := h; calls := (calls w ++ [c])%list |}).

(** Runs [m] on the store without recording anything. *)
Definition on_heap {A : Type} (m : St heap A) : St World A :=
  fun w =>
    let (o, h) := m (executors w) in
    (o, {| executors := h; calls := calls w |}).

(* ===================================================================== *)
(** ** The coordinator *)
(* ===================================================================== *)

(** [await prepare_operator_executor(operator_uri, request_params)]: an
    [ExecutionResult] when validation fails, the triple otherwise. *)
Definition prepare_operator_executor (env : Env) (operator_uri : string)
    (request_params : list (string * value))
  : St World (ExecutionResult.t + operator.Operator * loc * ExecutionContext.t) :=
  let registry := OperatorRegistry env in
  exists_ <- calling (call_operator_exists operator_uri)
               (ret (registry.operator_exists registry operator_uri)) ;;
  if negb exists_
  then raise (mk_exn ValueError ("Operator '" ++ operator_uri ++ "' does not exist"))
  else
    operator <- calling (call_get_operator operator_uri)
                  (ret (registry.get_operator registry operator_uri)) ;;
    executor <- on_heap Executor.new ;;
    let ctx :=
      ExecutionContext.__init__ (PluginSecretsResolver env) (Some request_params)
        (Some executor) in
    match operator with
    | None => raise (no_attribute "NoneType" "_plugin_secrets")
    | Some operator =>
        ctx <- calling call_resolve_secret_values
                 (fun h =>
                    let (o, ctx) :=
                      ExecutionContext.resolve_secret_values
                        (operator._plugin_secrets operator) ctx in
                    (match o with Returned _ => Returned ctx | Raised e => Raised e end,
                     h)) ;;
        inputs <- calling call_resolve_input (operator.resolve_input operator ctx) ;;
        validation_ctx <- lift_outcome (ValidationContext.__init__ ctx inputs operator) ;;
        if ValidationContext.invalid validation_ctx
        then
          ret (inl (ExecutionResult.__init__ (ExecutionResult.RValue VNone) None
                      (Some "Validation error") (Some validation_ctx) false))
        else ret (inr (operator, executor, ctx))
    end.

(** [op.__dict__] with its ["context"] entry replaced by
    [context.serialize() if context else None]. *)
Definition serialize_context_attr (d : list (string * ExecutionResult.attr))
  : outcome (list (string * ExecutionResult.attr)) :=
  match dict_lookup "context" d with
  | None => Raised (mk_exn KeyError "'context'")
  | Some (ExecutionResult.AContext c) =>
      Returned (dict_set "context" (ExecutionResult.AValue (ExecutionContext.serialize c)) d)
  | Some (ExecutionResult.AValue v) =>
      if truthy v
      then Raised (no_attribute (type_name_of v) "serialize")
      else Returned (dict_set "context" (ExecutionResult.AValue VNone) d)
  end.

(** The body of [execute_or_delegate_operator(operator_uri,
    request_params)].  The [coroutine_timeout] decorator around it comes
    from [fiftyone/operators/decorators.py], which is not among the
    sources, and is not part of this definition. *)
Definition execute_or_delegate_operator (env : Env) (operator_uri : string)
    (request_params : list (string * value)) : St World ExecutionResult.t :=
  prepared <- prepare_operator_executor env operator_uri request_params ;;
  match prepared with
  | inl prepared =>
      e <- lift_outcome (ExecutionResult.to_exception prepared) ;;
      raise e
  | inr (operator, executor, ctx) =>
      delegate <- calling call_resolve_delegation
                    (operator.resolve_delegation operator ctx) ;;
      if delegate
      then
        try_except
          (op <- calling call_queue_operation
                   (lift_outcome
                      (delegated.queue_operation (DelegatedOperationService env)
                         (operator.uri operator)
                         (ExecutionContext.serialize ctx)
                         (operator.delegation_target operator))) ;;
           result <- lift_outcome (serialize_context_attr (delegated.__dict__ op)) ;;
           ret (ExecutionResult.__init__ (ExecutionResult.RAttrs result)
                  (Some executor) None None true))
          (fun e =>
             ret (ExecutionResult.__init__ (ExecutionResult.RValue VNone)
                    (Some executor) (Some (format_exc e)) None false))
      else
        try_except
          (raw_result <-
             calling call_execute
               (if operator.execute_is_coroutine operator
                then operator.execute operator ctx
                else run_sync_task (operator.execute operator) ctx) ;;
           ret (ExecutionResult.__init__ (ExecutionResult.RValue raw_result)
                  (Some executor) None None false))
          (fun e =>
             ret (ExecutionResult.__init__ (ExecutionResult.RValue VNone)
                    (Some executor) (Some (format_exc e)) None false))
  end.

(** [resolve_type(registry, operator_uri, request_params)] *)
Definition resolve_type (env : Env) (registry : registry.OperatorRegistry)
    (operator_uri : string) (request_params : list (string * value))
  : St heap (option types.Property + ExecutionResult.t) :=
  if negb (registry.operator_exists registry operator_uri)
  then raise (mk_exn ValueError ("Operator '" ++ operator_uri ++ "' does not exist"))
  else
    match registry.get_operator registry operator_uri with
    | None => raise (no_attribute "NoneType" "resolve_type")
    | Some operator =>
        let ctx :=
          ExecutionContext.__init__ (PluginSecretsResolver env) (Some request_params) None in
        try_except
          (t <- operator.resolve_type operator ctx
                  (default (VStr "inputs") (dict_lookup "target" request_params)) ;;
           ret (inl t))
          (fun e =>
             ret (inr (ExecutionResult.__init__ (ExecutionResult.RValue VNone) None
                         (Some (format_exc e)) None false)))
    end.

(** [resolve_placement(operator, request_params)] *)
Definition resolve_placement (env : Env) (operator : operator.Operator)
    (request_params : list (string * value))
  : St heap (value + ExecutionResult.t) :=
  let ctx :=
    ExecutionContext.__init__ (PluginSecretsResolver env) (Some request_params) None in
  try_except
    (p <- operator.resolve_placement operator ctx ;; ret (inl p))
    (fun e =>
       ret (inr (ExecutionResult.__init__ (ExecutionResult.RValue VNone) None
                   (Some (str_of_exn e)) None false))).

(* ===================================================================== *)
(** ** Reasoning about validation runs *)
(* ===================================================================== *)

(** A validation step is _framed_ when its result and the errors it
    appends do not depend on the errors accumulated so far, and it changes
    nothing else of the context. *)
Definition framed {A : Type} (m : ValidationContext.V A) : Prop :=
  forall self, exists o new, forall errs,
    m (ValidationContext.set_errors errs self) =
    (o, ValidationContext.set_errors (errs ++ new) self).

(** The result of [m] and the errors [m] appends, read off a run that
    starts from an empty list. *)
Definition result_of {A : Type} (m : ValidationContext.V A) (self : ValidationContext.t)
  : outcome A :=
  fst (m (ValidationContext.set_errors [] self)).

Definition emitted {A : Type} (m : ValidationContext.V A) (self : ValidationContext.t)
  : list ValidationError.t :=
  ValidationContext.errors (snd (m (ValidationContext.set_errors [] self))).

(** A step _preserves_ [I] when [I] holds after it whenever it held before,
    however the step ends. *)
Definition preserves {A : Type} (I : ValidationContext.t -> Prop)
    (m : ValidationContext.V A) : Prop :=
  forall self, I self -> I (snd (m self)).

(** All accumulated errors were raised by the schema author. *)
Definition only_custom (self : ValidationContext.t) : Prop :=
  Forall (fun e => ValidationError.custom e = true) (ValidationContext.errors self).

(** The body of the loop of [validate_object] for one declared child. *)
Definition object_child (path : string) (value : value)
    (child : string * types.Property) : ValidationContext.V unit :=
  let '(name, property) := child in
  propertyValue <- ValidationContext.value_get value name ;;
  validation_error <-
    ValidationContext.validate_property (path ++ "." ++ name) property propertyValue ;;
  ValidationContext.add_error_if_any validation_error.

(** The body of the loop of [validate_list] for the element at index [i]. *)
Definition list_item (path : string) (element_type : types.type_) (i : nat)
    (item : value) : ValidationContext.V unit :=
  let item_path := path ++ "[" ++ str_of_nat i ++ "]" in
  let item_property := types.new_Property element_type in
  validation_error <- ValidationContext.validate_property item_path item_property item ;;
  ValidationContext.add_error_if_any validation_error.

(* ===================================================================== *)
(** ** Sample operators and environments *)
(* ===================================================================== *)

Module sample.

Definition String_ : types.type_ := types.BaseType "String".
Definition Number : types.type_ := types.BaseType "Number".
Definition Boolean : types.type_ := types.BaseType "Boolean".

Definition property (t : types.type_) (required : bool) : types.Property :=
  types.Build_Property t required false "Invalid property".

(** [{name: {type: string, required: true}}] *)
Definition say_hello_inputs : types.Property :=
  property (types.Object [("name", property String_ true)]) false.

Definition no_secrets : secrets.PluginSecretsResolver :=
  {| secrets.get_secret := fun _ => Returned None |}.

(** An operator that greets [params["name"]] and runs immediately. *)
Definition say_hello : operator.Operator :=
  {| operator.uri := "ns/say_hello";
     operator.config := {| operator.disable_schema_validation := false |};
     operator._plugin_secrets := None;
     operator.delegation_target := VNone;
     operator.resolve_input := fun _ => ret (Some say_hello_inputs);
     operator.resolve_delegation := fun _ => ret false;
     operator.execute_is_coroutine := false;
     operator.execute := fun ctx =>
       match ExecutionContext.params ctx with
       | VDict d =>
           match dict_lookup "name" d with
           | Some (VStr name) => ret (VDict [("greeting", VStr ("Hello, " ++ name))])
           | _ => raise (mk_exn KeyError "'name'")
           end
       | _ => raise (mk_exn TypeError "params is not a dict")
       end;
     operator.resolve_type := fun _ _ => ret (Some say_hello_inputs);
     operator.resolve_placement := fun _ => ret VNone |}.

(** An operator without inputs that asks to be delegated; were it executed,
    it would trigger a follow-up. *)
Definition delegating : operator.Operator :=
  {| operator.uri := "ns/delegating";
     operator.config := {| operator.disable_schema_validation := false |};
     operator._plugin_secrets := None;
     operator.delegation_target := VStr "orchestrator";
     operator.resolve_input := fun _ => ret None;
     operator.resolve_delegation := fun _ => ret true;
     operator.execute_is_coroutine := true;
     operator.execute := fun ctx =>
       ExecutionContext.trigger ctx "reload_dataset" VNone ;;; ret (VStr "done");
     operator.resolve_type := fun _ _ => ret None;
     operator.resolve_placement := fun _ => ret VNone |}.

(** An operator without inputs whose body raises. *)
Definition failing : operator.Operator :=
  {| operator.uri := "ns/failing";
     operator.config := {| operator.disable_schema_validation := false |};
     operator._plugin_secrets := None;
     operator.delegation_target := VNone;
     operator.resolve_input := fun _ => ret None;
     operator.resolve_delegation := fun _ => ret false;
     operator.execute_is_coroutine := false;
     operator.execute := fun _ => raise (mk_exn (OtherException "RuntimeError") "boom");
     operator.resolve_type := fun _ _ => ret None;
     operator.resolve_placement := fun _ => ret VNone |}.

(** A queue that accepts every operation. *)
Definition queue_up : delegated.DelegatedOperationService :=
  {| delegated.queue_operation := fun operator context delegation_target =>
       Returned
         {| delegated.__dict__ :=
              [("operator", ExecutionResult.AValue (VStr operator));
               ("delegation_target", ExecutionResult.AValue delegation_target);
               ("context",
                ExecutionResult.AContext
                  (ExecutionContext.__init__ no_secrets
                     (match context with
                      | VDict d =>
                          match dict_lookup "request_params" d with
                          | Some (VDict request_params) => Some request_params
                          | _ => None
                          end
                      | _ => None
                      end)
                     None));
               ("run_state", ExecutionResult.AValue (VStr "queued"))] |} |}.

(** A queue that cannot be reached. *)
Definition queue_down : delegated.DelegatedOperationService :=
  {| delegated.queue_operation := fun _ _ _ =>
       Raised (mk_exn (OtherException "ConnectionError") "queue unavailable") |}.

Definition env (queue : delegated.DelegatedOperationService) : Env :=
  {| OperatorRegistry :=
       {| registry.list_operators := [say_hello; delegating; failing] |};
     PluginSecretsResolver := no_secrets;
     DelegatedOperationService := queue |}.

(** The state before an invocation: no executor yet, no call made. *)
Definition world0 : World := {| executors := []; calls := [] |}.

(** A validation context over [params] for an operator whose configuration
    says whether schema validation is disabled. *)
Definition validation_ctx (params : value) (disable : bool) : ValidationContext.t :=
  {| ValidationContext.ctx :=
       ExecutionContext.__init__ no_secrets (Some [("params", params)]) None;
     ValidationContext.params := params;
     ValidationContext.inputs_property := None;
     ValidationContext.errors := [];
     ValidationContext.disable_schema_validation := disable;
     ValidationContext.invalid := false |}.

(** The context validation builds for [say_hello] invoked with [{}]. *)
Definition say_hello_without_name : ValidationContext.t :=
  {| ValidationContext.ctx :=
       ExecutionContext.__init__ no_secrets (Some [("params", VDict [])]) (Some 0);
     ValidationContext.params := VDict [];
     ValidationContext.inputs_property := Some say_hello_inputs;
     ValidationContext.errors :=
       [ValidationError.__init__ "Required property" (property String_ true)
          ".name" false];
     ValidationContext.disable_schema_validation := false;
     ValidationContext.invalid := true |}.

End sample.

(* ===================================================================== *)
(** ** Definitions for the further properties *)
(* ===================================================================== *)



(** A value _conforms_ to a schema node of type [t] when the node is not
    marked invalid and either the value is absent and the node optional, or
    the value is present and: a member of the enum; a dictionary whose
    declared children conform (a missing key counts as absent); a list
    whose elements conform to the element type, as optional nodes; of the
    right Python type for [String], [Number] (int or float, not bool) and
    [Boolean]; anything for any other type. *)
Fixpoint conforms_node (t : types.type_) (property : types.Property) (value : value)
    {struct t} : bool :=
  negb (types.invalid property) &&
  match value with
  | VNone => negb (types.required property)
  | _ =>
      match t with
      | types.Enum values => py_in value values
      | types.Object properties =>
          match value with
          | VDict items =>
              forallb
                (fun '(name, property) =>
                   conforms_node (types.type property) property
                     (default VNone (dict_lookup name items)))
                properties
          | _ => false
          end
      | types.List element_type =>
          match value with
          | VList items =>
              forallb (conforms_node element_type (types.new_Property element_type)) items
          | _ => false
          end
      | types.BaseType class_name =>
          if String.eqb class_name "String"
          then match value with VStr _ => true | _ => false end
          else if String.eqb class_name "Number"
          then match value with VInt _ | VFloat _ => true | _ => false end
          else if String.eqb class_name "Boolean"
          then match value with VBool _ => true | _ => false end
          else true
      end
  end.

Definition conforms (property : types.Property) (value : value) : bool :=
  conforms_node (types.type property) property value.

(** [ok] holds of the node [property] of type [t] and of every node
    beneath it, the optional nodes that [validate_list] builds for list
    elements included. *)
Fixpoint all_nodes (ok : types.Property -> bool) (t : types.type_)
    (property : types.Property) {struct t} : bool :=
  ok property &&
  match t with
  | types.Object properties =>
      forallb (fun '(_, property) => all_nodes ok (types.type property) property)
        properties
  | types.List element_type =>
      all_nodes ok element_type (types.new_Property element_type)
  | _ => true
  end.

(** A step raises nothing but exceptions that satisfy [Q]. *)
Definition raises_only {A : Type} (Q : exn -> Prop) (m : ValidationContext.V A) : Prop :=
  forall self e s, m self = (Raised e, s) -> Q e.

(** The [AttributeError] of a [get] on a present value that is not a
    dictionary. *)
Definition get_on_non_dict (e : exn) : Prop :=
  exists v, is_None v = false /\ (forall items, v <> VDict items) /\
            e = no_attribute (type_name_of v) "get".

(* ===================================================================== *)
(** * Lemmas *)
(* ===================================================================== *)

(** ** Induction over schema types *)

Lemma type_induction (P : types.type_ -> Prop) :
  (forall values, P (types.Enum values)) ->
  (forall properties,
      Forall (fun child => P (types.type (snd child))) properties ->
      P (types.Object properties)) ->
  (forall element_type, P element_type -> P (types.List element_type)) ->
  (forall class_name, P (types.BaseType class_name)) ->
  forall t, P t.
Proof.
  intros HEnum HObject HList HBase.
  fix IH 1.
  intros [values | properties | element_type | class_name].
  - apply HEnum.
  - apply HObject.
    induction properties as [| [name [t r i m]] rest IHrest].
    + constructor.
    + constructor; [exact (IH t) | exact IHrest].
  - apply HList, IH.
  - apply HBase.
Qed.

(** ** The methods have the shape of the source *)

Lemma validate_property_eq path property value :
  ValidationContext.validate_property path property value =
  if types.invalid property
  then ret (Some (ValidationError.__init__ (types.error_message property) property path true))
  else if types.required property && is_None value
  then ret (Some (ValidationError.__init__ "Required property" property path false))
  else if negb (is_None value)
  then
    match types.type property with
    | types.Enum _ => ValidationContext.validate_enum path property value
    | types.Object _ => ValidationContext.validate_object path property value
    | types.List _ => ValidationContext.validate_list path property value
    | _ => ValidationContext.validate_primitive path property value
    end
  else ret None.
Proof.
  destruct property as [[values | properties | element_type | class_name] r i m];
    destruct value; reflexivity.
Qed.


Lemma validate_list_eq path property element_type value :
  types.type property = types.List element_type ->
  ValidationContext.validate_list path property value =
  match value with
  | VList items => for_each_index (list_item path element_type) 0 items ;;; ret None
  | _ => ret (Some (ValidationError.__init__ "Invalid list" property path false))
  end.
Proof.
  intros Ht. unfold ValidationContext.validate_list. rewrite Ht.
  destruct value; reflexivity.
Qed.

(** ** Record bookkeeping *)

Lemma set_errors_id self :
  ValidationContext.set_errors (ValidationContext.errors self) self = self.
Proof. destruct self; reflexivity. Qed.

(** ** Framed steps *)

Lemma framed_run {A} (m : ValidationContext.V A) self :
  framed m ->
  m self =
  (result_of m self,
   ValidationContext.set_errors (ValidationContext.errors self ++ emitted m self) self).
Proof.
  intros Hm. destruct (Hm self) as (o & new & H).
  unfold result_of, emitted. rewrite (H []). simpl.
  rewrite <- (set_errors_id self) at 1. apply H.
Qed.

Lemma framed_ret {A} (a : A) : framed (ret a).
Proof.
  intros self. exists (Returned a), []. intros errs.
  unfold ret. by rewrite app_nil_r.
Qed.

Lemma framed_raise {A} (e : exn) : framed (@raise _ A e).
Proof.
  intros self. exists (Raised e), []. intros errs.
  unfold raise. by rewrite app_nil_r.
Qed.

Lemma framed_bind {A B} (m : ValidationContext.V A) (k : A -> ValidationContext.V B) :
  framed m -> (forall a, framed (k a)) -> framed (bind m k).
Proof.
  intros Hm Hk self.
  destruct (Hm self) as ([a | e] & new1 & H1).
  - destruct (Hk a self) as (o & new2 & H2).
    exists o, (new1 ++ new2)%list. intros errs.
    unfold bind. rewrite H1, H2. by rewrite app_assoc.
  - exists (Raised e), new1. intros errs.
    unfold bind. by rewrite H1.
Qed.

Lemma framed_add_error error : framed (ValidationContext.add_error error).
Proof.
  intros self.
  destruct (ValidationContext.disable_schema_validation self
            && negb (ValidationError.custom error)) eqn:Hdrop.
  - exists (Returned tt), []. intros errs.
    unfold ValidationContext.add_error. simpl. rewrite Hdrop.
    by rewrite app_nil_r.
  - exists (Returned tt), [error]. intros errs.
    unfold ValidationContext.add_error. simpl. by rewrite Hdrop.
Qed.

Lemma framed_add_error_if_any validation_error :
  framed (ValidationContext.add_error_if_any validation_error).
Proof.
  destruct validation_error; [apply framed_add_error | apply framed_ret].
Qed.

Lemma framed_value_get value name : framed (ValidationContext.value_get value name).
Proof. destruct value; first [apply framed_ret | apply framed_raise]. Qed.

Lemma framed_for_each {A} (body : A -> ValidationContext.V unit) l :
  Forall (fun x => framed (body x)) l -> framed (for_each body l).
Proof.
  induction 1 as [| x l Hx Hl IH]; simpl.
  - apply framed_ret.
  - apply framed_bind; [exact Hx | intros _; exact IH].
Qed.

Lemma framed_for_each_index {A} (body : nat -> A -> ValidationContext.V unit) l :
  (forall i x, framed (body i x)) -> forall i, framed (for_each_index body i l).
Proof.
  intros Hbody. induction l as [| x l IH]; intros i; simpl.
  - apply framed_ret.
  - apply framed_bind; [apply Hbody | intros _; apply IH].
Qed.

Lemma framed_validate_enum_values values path property value :
  framed (ValidationContext.validate_enum_values values path property value).
Proof.
  unfold ValidationContext.validate_enum_values.
  destruct (negb _); apply framed_ret.
Qed.

Lemma framed_validate_primitive_named type_name path property value :
  framed (ValidationContext.validate_primitive_named type_name path property value).
Proof.
  unfold ValidationContext.validate_primitive_named.
  repeat (match goal with |- framed (if ?b then _ else _) => destruct b end);
    apply framed_ret.
Qed.

Create HintDb framed.

#[local] Hint Resolve framed_ret framed_raise framed_bind framed_add_error
  framed_add_error_if_any framed_value_get framed_validate_enum_values
  framed_validate_primitive_named : framed.

Lemma framed_validate_node t :
  forall path property value,
    framed (ValidationContext.validate_node t path property value).
Proof.
  induction t as [values | properties IH | element_type IH | class_name]
    using type_induction; intros path property value; simpl;
    repeat (match goal with |- framed (if ?b then _ else _) => destruct b end);
    auto with framed.
  - apply framed_bind; [| auto with framed].
    apply framed_for_each.
    induction IH as [| [name child] rest Hchild _ IHrest]; constructor; [| exact IHrest].
    auto 6 with framed.
  - destruct value; auto with framed.
    apply framed_bind; [| auto with framed].
    apply framed_for_each_index. intros i item. auto with framed.
Qed.

Lemma framed_validate_property path property value :
  framed (ValidationContext.validate_property path property value).
Proof. apply framed_validate_node. Qed.

Lemma framed_object_child path value child : framed (object_child path value child).
Proof.
  destruct child as [name property]. unfold object_child.
  auto 6 using framed_validate_property with framed.
Qed.

Lemma framed_list_item path element_type i item :
  framed (list_item path element_type i item).
Proof.
  unfold list_item. auto 6 using framed_validate_property with framed.
Qed.

(** ** What a framed step returns and appends *)

Lemma framed_fst {A} (m : ValidationContext.V A) self :
  framed m -> fst (m self) = result_of m self.
Proof. intros Hm. by rewrite (framed_run m self Hm). Qed.

Lemma framed_errors {A} (m : ValidationContext.V A) self :
  framed m ->
  ValidationContext.errors (snd (m self)) =
  (ValidationContext.errors self ++ emitted m self)%list.
Proof. intros Hm. by rewrite (framed_run m self Hm). Qed.

Lemma emitted_set_errors {A} (m : ValidationContext.V A) errs self :
  emitted m (ValidationContext.set_errors errs self) = emitted m self.
Proof. reflexivity. Qed.

Lemma result_of_set_errors {A} (m : ValidationContext.V A) errs self :
  result_of m (ValidationContext.set_errors errs self) = result_of m self.
Proof. reflexivity. Qed.

Lemma bind_Returned {A B} (m : ValidationContext.V A) (k : A -> ValidationContext.V B)
    self a :
  framed m -> (forall a, framed (k a)) ->
  result_of m self = Returned a ->
  result_of (bind m k) self = result_of (k a) self /\
  emitted (bind m k) self = (emitted m self ++ emitted (k a) self)%list.
Proof.
  intros Hm Hk Ha.
  unfold result_of, emitted, bind in *.
  rewrite (framed_run m _ Hm) in *. simpl in *.
  rewrite result_of_set_errors, emitted_set_errors in *. rewrite Ha.
  rewrite (framed_run (k a) _ (Hk a)). simpl.
  by rewrite result_of_set_errors, emitted_set_errors.
Qed.




(** An error that [validate_property] returns sits at the path it was
    called with. *)
Lemma validate_property_path path property value self e :
  fst (ValidationContext.validate_property path property value self) = Returned (Some e) ->
  ValidationError.path e = path.
Proof.
  unfold ValidationContext.validate_property.
  destruct property as [t r i m]. simpl.
  destruct t as [values | properties | element_type | class_name]; simpl;
    destruct i; simpl; try (intros [= <-]; reflexivity);
    destruct (r && is_None value); simpl; try (intros [= <-]; reflexivity);
    destruct (is_None value) eqn:Hnone; simpl; try discriminate.
  - unfold ValidationContext.validate_enum_values.
    destruct (negb _); simpl; [intros [= <-]; reflexivity | discriminate].
  - unfold bind. destruct (for_each _ _ _) as [[[] | e'] s]; simpl; discriminate.
  - destruct value; simpl; try (intros [= <-]; reflexivity).
    unfold bind. destruct (for_each_index _ _ _ _) as [[[] | e'] s]; simpl; discriminate.
  - unfold ValidationContext.validate_primitive_named.
    repeat (match goal with |- context [if ?b then _ else _] => destruct b end;
            simpl; try (intros [= <-]; reflexivity); try discriminate).
Qed.




(* ===================================================================== *)
(** * The validation engine *)
(* ===================================================================== *)



(** ** Steps that preserve an invariant of the context *)

Lemma preserves_ret {A} I (a : A) : preserves I (ret a).
Proof. intros self HI. exact HI. Qed.

Lemma preserves_raise {A} I (e : exn) : preserves I (@raise _ A e).
Proof. intros self HI. exact HI. Qed.

Lemma preserves_bind {A B} I (m : ValidationContext.V A)
    (k : A -> ValidationContext.V B) :
  preserves I m -> (forall a, preserves I (k a)) -> preserves I (bind m k).
Proof.
  intros Hm Hk self HI. unfold bind.
  specialize (Hm self HI).
  destruct (m self) as [[a | e] s]; simpl in *; [by apply Hk | exact Hm].
Qed.

Lemma preserves_for_each {A} I (body : A -> ValidationContext.V unit) l :
  Forall (fun x => preserves I (body x)) l -> preserves I (for_each body l).
Proof.
  induction 1 as [| x l Hx Hl IH]; simpl.
  - apply preserves_ret.
  - apply preserves_bind; [exact Hx | intros _; exact IH].
Qed.

Lemma preserves_for_each_index {A} I (body : nat -> A -> ValidationContext.V unit) l :
  (forall i x, preserves I (body i x)) -> forall i, preserves I (for_each_index body i l).
Proof.
  intros Hbody. induction l as [| x l IH]; intros i; simpl.
  - apply preserves_ret.
  - apply preserves_bind; [apply Hbody | intros _; apply IH].
Qed.

Lemma preserves_value_get I value name :
  preserves I (ValidationContext.value_get value name).
Proof. destruct value; first [apply preserves_ret | apply preserves_raise]. Qed.

Lemma preserves_validate_enum_values I values path property value :
  preserves I (ValidationContext.validate_enum_values values path property value).
Proof.
  unfold ValidationContext.validate_enum_values.
  destruct (negb _); apply preserves_ret.
Qed.

Lemma preserves_validate_primitive_named I type_name path property value :
  preserves I (ValidationContext.validate_primitive_named type_name path property value).
Proof.
  unfold ValidationContext.validate_primitive_named.
  repeat (match goal with |- preserves _ (if ?b then _ else _) => destruct b end);
    apply preserves_ret.
Qed.

(** The errors list changes through [add_error] only: what [add_error]
    preserves, validation preserves. *)
Lemma preserves_validate_node I t :
  (forall error, preserves I (ValidationContext.add_error error)) ->
  forall path property value,
    preserves I (ValidationContext.validate_node t path property value).
Proof.
  intros Hadd.
  assert (Hany : forall o, preserves I (ValidationContext.add_error_if_any o)).
  { intros [e |]; [apply Hadd | apply preserves_ret]. }
  induction t as [values | properties IH | element_type IH | class_name]
    using type_induction; intros path property value; simpl;
    repeat (match goal with |- preserves _ (if ?b then _ else _) => destruct b end);
    try apply preserves_ret;
    auto using preserves_validate_enum_values, preserves_validate_primitive_named.
  - apply preserves_bind; [| intros _; apply preserves_ret].
    apply preserves_for_each.
    induction IH as [| [name child] rest Hchild _ IHrest]; constructor; [| exact IHrest].
    apply preserves_bind; [apply preserves_value_get |].
    intros a. apply preserves_bind; [apply Hchild | apply Hany].
  - destruct value; try apply preserves_ret.
    apply preserves_bind; [| intros _; apply preserves_ret].
    apply preserves_for_each_index. intros i item.
    apply preserves_bind; [apply IH | apply Hany].
Qed.

(** With schema validation disabled, [add_error] keeps the list free of
    errors that are not custom. *)
Lemma add_error_only_custom error :
  preserves
    (fun self =>
       ValidationContext.disable_schema_validation self = true /\ only_custom self)
    (ValidationContext.add_error error).
Proof.
  intros self [Hoff Hall]. unfold ValidationContext.add_error. rewrite Hoff. simpl.
  destruct (ValidationError.custom error) eqn:Hc; simpl; [| by split].
  split; [exact Hoff |].
  unfold only_custom. simpl. apply Forall_app. split; [exact Hall |].
  by constructor.
Qed.

(** A context built for an operator that disables schema validation holds
    custom errors only. *)
Lemma init_only_custom ctx inputs_property operator validation_ctx :
  operator.disable_schema_validation (operator.config operator) = true ->
  ValidationContext.__init__ ctx inputs_property operator = Returned validation_ctx ->
  only_custom validation_ctx.
Proof.
  intros H H0.
    revert H0. unfold ValidationContext.__init__.
    destruct inputs_property as [p |]; [| intros [= <-]; constructor].
    destruct (ValidationContext._validate _) as [[errs | e] s] eqn:Hrun; [| discriminate].
    intros [= <-]. unfold only_custom. simpl.
    revert Hrun. unfold ValidationContext._validate, bind, get_state. simpl.
    destruct (ValidationContext.validate_property _ _ _ _) as [[o | e] s1] eqn:Hp;
      [| discriminate].
    destruct (ValidationContext.add_error_if_any o s1) as [[[] | e] s2] eqn:Ha;
      [| discriminate].
    unfold ret. intros [= <- <-].
    assert (H1 : ValidationContext.disable_schema_validation s1 = true /\ only_custom s1).
    { replace s1 with (snd (ValidationContext.validate_property "" p
                              (ExecutionContext.params ctx)
          {| ValidationContext.ctx := ctx;
             ValidationContext.params := ExecutionContext.params ctx;
             ValidationContext.inputs_property := Some p;
             ValidationContext.errors := [];
             ValidationContext.disable_schema_validation :=
               operator.disable_schema_validation (operator.config operator);
             ValidationContext.invalid := false |})) by (by rewrite Hp).
      apply (preserves_validate_node _ _ add_error_only_custom).
      split; [exact H | constructor]. }
    replace s2 with (snd (ValidationContext.add_error_if_any o s1)) by (by rewrite Ha).
    destruct o as [error |]; simpl; [| apply H1].
    apply (add_error_only_custom error s1 H1).
Qed.

(** C8.  With schema validation disabled, [add_error] drops every error
    whose [custom] flag is false and still appends one whose flag is true;
    the error of a schema node that is itself marked invalid is such a
    custom error; validation keeps the accumulated list free of other
    errors; and a context built this way holds custom errors only, so it
    is invalid only through one of them. *)
Theorem disabled_schema_validation_keeps_only_custom_errors :
  forall self,
    ValidationContext.disable_schema_validation self = true ->
    (forall error,
        ValidationError.custom error = false ->
        ValidationContext.add_error error self = (Returned tt, self)) /\
    (forall error,
        ValidationError.custom error = true ->
        ValidationContext.add_error error self =
        (Returned tt,
         ValidationContext.set_errors (ValidationContext.errors self ++ [error]) self)) /\
    (forall path property value,
        types.invalid property = true ->
        ValidationContext.validate_property path property value self =
        (Returned (Some {| ValidationError.reason := types.error_message property;
                           ValidationError.error_message := types.error_message property;
                           ValidationError.path := path;
                           ValidationError.custom := true |}), self)) /\
    (forall path property value,
        only_custom self ->
        only_custom (snd (ValidationContext.validate_property path property value self))) /\
    (forall ctx inputs_property operator validation_ctx,
        operator.disable_schema_validation (operator.config operator) = true ->
        ValidationContext.__init__ ctx inputs_property operator = Returned validation_ctx ->
        only_custom validation_ctx /\
        (ValidationContext.invalid validation_ctx = true ->
         exists error,
           error ∈ ValidationContext.errors validation_ctx /\
           ValidationError.custom error = true)).
Proof.
  intros self Hoff. repeat split.
  - intros error Hc. unfold ValidationContext.add_error. by rewrite Hoff, Hc.
  - intros error Hc. unfold ValidationContext.add_error. by rewrite Hoff, Hc.
  - intros path property value Hinv.
    rewrite validate_property_eq, Hinv. reflexivity.
  - intros path property value Hall.
    apply (preserves_validate_node _ _ add_error_only_custom path property value self).
    by split.
  - by apply (init_only_custom ctx inputs_property operator).
  - intros Hinvalid.
    assert (Hall : only_custom validation_ctx)
      by (by apply (init_only_custom ctx inputs_property operator)).
    revert H0 Hinvalid Hall. unfold ValidationContext.__init__.
    destruct inputs_property as [p |]; [| intros [= <-]; discriminate].
    destruct (ValidationContext._validate _) as [[errs | e] s]; [| discriminate].
    intros [= <-]. unfold only_custom. simpl.
    destruct errs as [| error rest]; [discriminate |].
    intros _ Hall. exists error. split; [left |].
    by inversion Hall.
Qed.

Lemma disabled_schema_validation_keeps_only_custom_errors_witness :
  let self := sample.validation_ctx (VInt 5) true in
  let error :=
    ValidationError.__init__ "Invalid value type"
      (sample.property sample.String_ false) "" false in
  ValidationContext.add_error error self = (Returned tt, self).
Proof.
  intros self error.
  apply (proj1 (disabled_schema_validation_keeps_only_custom_errors self eq_refl)).
  reflexivity.
Defined.

(** C10.  For a node that is required and not marked invalid, with an
    absent value: [validate_property] returns exactly the "Required
    property" error at the node's path and leaves the accumulated errors as
    they were, so nothing is recorded from beneath the node; a key missing
    from the parent dictionary reads as absent; with schema validation
    enabled the object loop records exactly that one error for such a
    child; and at the root the context ends with that single error. *)
Theorem required_absent_emits_one_required_error :
  forall path property self,
    types.required property = true ->
    types.invalid property = false ->
    ValidationContext.validate_property path property VNone self =
      (Returned (Some {| ValidationError.reason := "Required property";
                         ValidationError.error_message := types.error_message property;
                         ValidationError.path := path;
                         ValidationError.custom := false |}), self) /\
    (forall items name,
        dict_lookup name items = None ->
        ValidationContext.value_get (VDict items) name self = (Returned VNone, self)) /\
    (forall items name,
        ValidationContext.disable_schema_validation self = false ->
        default VNone (dict_lookup name items) = VNone ->
        object_child path (VDict items) (name, property) self =
        (Returned tt,
         ValidationContext.set_errors
           (ValidationContext.errors self
            ++ [ValidationError.__init__ "Required property" property
                  (path ++ "." ++ name) false]) self)) /\
    (forall ctx operator,
        ExecutionContext.params ctx = VNone ->
        operator.disable_schema_validation (operator.config operator) = false ->
        exists validation_ctx,
          ValidationContext.__init__ ctx (Some property) operator = Returned validation_ctx /\
          ValidationContext.invalid validation_ctx = true /\
          ValidationContext.errors validation_ctx =
            [ValidationError.__init__ "Required property" property "" false]).
Proof.
  intros path property self Hreq Hvalid.
  assert (Hrun : forall path self,
             ValidationContext.validate_property path property VNone self =
             (Returned (Some (ValidationError.__init__ "Required property" property
                                path false)), self)).
  { intros path' self'. rewrite validate_property_eq, Hvalid, Hreq. reflexivity. }
  repeat split.
  - apply Hrun.
  - intros items name Hmiss. simpl. unfold ret. by rewrite Hmiss.
  - intros items name Hon Habsent.
    unfold object_child, bind. simpl. rewrite Habsent, Hrun.
    simpl. unfold ValidationContext.add_error. by rewrite Hon.
  - intros ctx operator Hparams Hon.
    unfold ValidationContext.__init__, ValidationContext._validate, bind, get_state.
    simpl. rewrite Hparams, Hrun. simpl.
    unfold ValidationContext.add_error. simpl. rewrite Hon. simpl.
    eexists. repeat split.
Qed.

Lemma required_absent_emits_one_required_error_witness :
  ValidationContext.validate_property ".name" (sample.property sample.String_ true) VNone
    (sample.validation_ctx (VDict []) false) =
  (Returned (Some {| ValidationError.reason := "Required property";
                     ValidationError.error_message := "Invalid property";
                     ValidationError.path := ".name";
                     ValidationError.custom := false |}),
   sample.validation_ctx (VDict []) false).
Proof.
  apply (proj1 (required_absent_emits_one_required_error ".name"
                  (sample.property sample.String_ true)
                  (sample.validation_ctx (VDict []) false) eq_refl eq_refl)).
Defined.

(** C4.  What [validate_object] does with a present value that is not a
    dictionary.  When the object declares a child, and the node is not
    marked invalid, looking the child up raises [AttributeError], for a
    number, a string, a list or a boolean alike: no [ValidationError] is
    produced and the exception leaves [ValidationContext(...)].  When the
    object declares no child, the value is accepted without any error. *)
Theorem validate_object_non_dict_raises :
  (forall path name child rest required message self value,
      match value with
      | VNone | VDict _ => True
      | _ =>
          ValidationContext.validate_property path
            (types.Build_Property (types.Object ((name, child) :: rest))
               required false message)
            value self =
          (Raised (no_attribute (type_name_of value) "get"), self)
      end) /\
  (forall path required message self value,
      match value with
      | VNone => True
      | _ =>
          ValidationContext.validate_property path
            (types.Build_Property (types.Object []) required false message)
            value self = (Returned None, self)
      end) /\
  ValidationContext.__init__
    (ExecutionContext.__init__ sample.no_secrets (Some [("params", VInt 5)]) None)
    (Some sample.say_hello_inputs) sample.say_hello =
  Raised {| exn_cls := AttributeError;
            exn_msg := "'int' object has no attribute 'get'" |}.
Proof.
  repeat split.
  - intros path name child rest required message self value.
    destruct value; try exact I;
      unfold ValidationContext.validate_property; simpl;
      rewrite andb_false_r; reflexivity.
  - intros path required message self value.
    destruct value; try exact I;
      unfold ValidationContext.validate_property; simpl;
      rewrite andb_false_r; reflexivity.
Qed.

(* ===================================================================== *)
(** * Triggering follow-up operators *)
(* ===================================================================== *)

(** C9.  [trigger] on a context without an executor raises
    [ValueError("No executor available")] and changes nothing, in
    particular on a context constructed without one.  On a context whose
    executor is in the store it appends exactly one [InvocationRequest] to
    that executor's requests, leaves its logs and every other executor
    alone, and returns a [SUCCESS] message whose body is that request; the
    request holds the operator name and [params or {}], which is [params]
    itself whenever [params] is a dictionary. *)
Theorem trigger_needs_executor_and_appends_one_request :
  (forall self operator_name params h,
      ExecutionContext.executor self = None ->
      ExecutionContext.trigger self operator_name params h =
      (Raised (mk_exn ValueError "No executor available"), h)) /\
  (forall client request_params operator_name params h,
      ExecutionContext.trigger (ExecutionContext.__init__ client request_params None)
        operator_name params h =
      (Raised (mk_exn ValueError "No executor available"), h)) /\
  (forall self l ex operator_name params (h : heap),
      ExecutionContext.executor self = Some l ->
      h !! l = Some ex ->
      let inv_req := InvocationRequest.__init__ operator_name params in
      let h' :=
        <[l := {| Executor._requests := Executor._requests ex ++ [inv_req];
                  Executor._logs := Executor._logs ex |}]> h in
      ExecutionContext.trigger self operator_name params h =
        (Returned (message.Build_GeneratedMessage message.SUCCESS
                     "InvocationRequest" inv_req), h') /\
      (Executor._requests <$> h' !! l) = Some (Executor._requests ex ++ [inv_req])%list /\
      (forall l', l' <> l -> h' !! l' = h !! l') /\
      InvocationRequest.operator_uri inv_req = operator_name /\
      InvocationRequest.params inv_req = (if truthy params then params else VDict []) /\
      (forall d, params = VDict d -> InvocationRequest.params inv_req = params)).
Proof.
  split; [| split].
  - intros self operator_name params h Hnone.
    unfold ExecutionContext.trigger. by rewrite Hnone.
  - reflexivity.
  - intros self l ex operator_name params h Hex Hl inv_req h'.
    repeat split.
    + unfold ExecutionContext.trigger, Executor.trigger. by rewrite Hex, Hl.
    + subst h'. rewrite list_lookup_insert_eq; [reflexivity |].
      by eapply lookup_lt_Some.
    + intros l' Hne. subst h'. by rewrite list_lookup_insert_ne.
    + intros d ->. by destruct d.
Qed.

Lemma trigger_needs_executor_and_appends_one_request_witness :
  let ctx :=
    ExecutionContext.__init__ sample.no_secrets (Some [("params", VDict [])]) (Some 0) in
  ExecutionContext.trigger ctx "reload_dataset" (VDict [("force", VBool true)])
    [Executor.__init__ None None] =
  (Returned (message.Build_GeneratedMessage message.SUCCESS "InvocationRequest"
               {| InvocationRequest.operator_uri := "reload_dataset";
                  InvocationRequest.params := VDict [("force", VBool true)] |}),
   [{| Executor._requests :=
         [{| InvocationRequest.operator_uri := "reload_dataset";
             InvocationRequest.params := VDict [("force", VBool true)] |}];
       Executor._logs := [] |}]).
Proof.
  intros ctx.
  apply (proj1 (proj2 (proj2 trigger_needs_executor_and_appends_one_request)
                  ctx 0 (Executor.__init__ None None) "reload_dataset"
                  (VDict [("force", VBool true)]) [Executor.__init__ None None]
                  eq_refl eq_refl)).
Defined.

(* ===================================================================== *)
(** * The coordinator *)
(* ===================================================================== *)

(** Case analysis on the next scrutinee of a run recorded in [H]. *)
Ltac run_step H :=
  match type of H with
  | context [match ?x with _ => _ end] =>
      let E := fresh "E" in destruct x eqn:E; simpl in H; try discriminate H
  | context [if ?x then _ else _] =>
      let E := fresh "E" in destruct x eqn:E; simpl in H; try discriminate H
  end.

(** What every turn of a loop preserves, the loop preserves. *)
Lemma for_each_invariant {T A} (I : T -> Prop) (body : A -> St T unit) l s :
  (forall x s, I s -> I (snd (body x s))) ->
  I s -> I (snd (for_each body l s)).
Proof.
  intros Hbody. revert s.
  induction l as [| x l IH]; intros s Hs; simpl; [exact Hs |].
  unfold bind. specialize (Hbody x s Hs).
  destruct (body x s) as [[[] | e] s']; simpl in *; [by apply IH | exact Hbody].
Qed.

(** Resolving secrets touches the secrets of the context only. *)
Lemma resolve_secret_values_frame keys self :
  let self' := snd (ExecutionContext.resolve_secret_values keys self) in
  ExecutionContext.request_params self' = ExecutionContext.request_params self /\
  ExecutionContext.params self' = ExecutionContext.params self /\
  ExecutionContext.executor self' = ExecutionContext.executor self /\
  ExecutionContext._secrets_client self' = ExecutionContext._secrets_client self.
Proof.
  destruct keys as [keys |]; simpl; [| done].
  apply (for_each_invariant
           (fun s =>
              ExecutionContext.request_params s = ExecutionContext.request_params self /\
              ExecutionContext.params s = ExecutionContext.params self /\
              ExecutionContext.executor s = ExecutionContext.executor self /\
              ExecutionContext._secrets_client s = ExecutionContext._secrets_client self));
    [| done].
  intros key s Hs.
  unfold ExecutionContext.resolve_secret_value, bind, get_state, lift_outcome.
  destruct (secrets.get_secret _ key) as [[secret |] | e]; simpl; exact Hs.
Qed.

(** When preparation hands back the triple, the registry was asked twice,
    the secrets and the input schema were resolved, in this order, and the
    executor is the one just created. *)
Lemma prepare_triple env operator_uri request_params w operator executor ctx w1 :
  prepare_operator_executor env operator_uri request_params w =
    (Returned (inr (operator, executor, ctx)), w1) ->
  calls w1 =
    (calls w ++ [call_operator_exists operator_uri; call_get_operator operator_uri;
                 call_resolve_secret_values; call_resolve_input])%list /\
  executor = length (executors w) /\
  ExecutionContext.executor ctx = Some executor /\
  registry.get_operator (OperatorRegistry env) operator_uri = Some operator.
Proof.
  unfold prepare_operator_executor, bind, calling, on_heap, ret, raise, lift_outcome,
    Executor.new.
  simpl. intros H.
  repeat run_step H.
  inversion H; subst; clear H.
  destruct (ExecutionContext.resolve_secret_values _ _) as [o' ctx'] eqn:Hsecrets in E1.
  inversion E1; subst; clear E1.
  destruct (operator.resolve_input _ _ _) as [o'' h''] in E3.
  inversion E3; subst; clear E3. simpl.
  repeat split.
  - by rewrite <- !app_assoc.
  - destruct o' as [[] | e]; [| discriminate]. inversion H0; subst.
    match type of Hsecrets with
    | ExecutionContext.resolve_secret_values ?keys ?self = _ =>
        pose proof (resolve_secret_values_frame keys self) as Hframe
    end.
    rewrite Hsecrets in Hframe. simpl in Hframe. tauto.
Qed.

(** [invalid] of a freshly built context says whether it holds errors. *)
Lemma init_invalid ctx inputs_property operator validation_ctx :
  ValidationContext.__init__ ctx inputs_property operator = Returned validation_ctx ->
  ValidationContext.invalid validation_ctx =
  (0 <? length (ValidationContext.errors validation_ctx))%nat.
Proof.
  unfold ValidationContext.__init__.
  destruct inputs_property as [p |]; [| by intros [= <-]].
  destruct (ValidationContext._validate _) as [[errs | e] s]; [| discriminate].
  by intros [= <-].
Qed.


(** The rest of the coordinator once preparation handed back the triple
    and the operator asked to be delegated. *)
Lemma coordinator_delegating env operator_uri request_params w operator executor ctx w1 h2 :
  prepare_operator_executor env operator_uri request_params w =
    (Returned (inr (operator, executor, ctx)), w1) ->
  operator.resolve_delegation operator ctx (executors w1) = (Returned true, h2) ->
  execute_or_delegate_operator env operator_uri request_params w =
  let w3 :=
    {| executors := h2;
       calls := ((calls w1 ++ [call_resolve_delegation]) ++ [call_queue_operation])%list |} in
  match
    delegated.queue_operation (DelegatedOperationService env) (operator.uri operator)
      (ExecutionContext.serialize ctx) (operator.delegation_target operator)
  with
  | Returned op =>
      match serialize_context_attr (delegated.__dict__ op) with
      | Returned result =>
          (Returned (ExecutionResult.__init__ (ExecutionResult.RAttrs result)
                       (Some executor) None None true), w3)
      | Raised e =>
          if is_Exception e
          then (Returned (ExecutionResult.__init__ (ExecutionResult.RValue VNone)
                            (Some executor) (Some (format_exc e)) None false), w3)
          else (Raised e, w3)
      end
  | Raised e =>
      if is_Exception e
      then (Returned (ExecutionResult.__init__ (ExecutionResult.RValue VNone)
                        (Some executor) (Some (format_exc e)) None false), w3)
      else (Raised e, w3)
  end.
Proof.
  intros Hprep Hdel.
  unfold execute_or_delegate_operator, bind at 1. rewrite Hprep.
  unfold bind at 1, calling at 1. rewrite Hdel. simpl.
  unfold try_except, bind, calling, lift_outcome, ret. simpl.
  destruct (delegated.queue_operation _ _ _ _) as [op | e]; simpl.
  - destruct (serialize_context_attr _) as [result | e]; simpl; [reflexivity |].
    destruct (is_Exception e); reflexivity.
  - destruct (is_Exception e); reflexivity.
Qed.

(** The rest of the coordinator once preparation handed back the triple
    and the operator asked to run now. *)
Lemma coordinator_running env operator_uri request_params w operator executor ctx w1 h2 :
  prepare_operator_executor env operator_uri request_params w =
    (Returned (inr (operator, executor, ctx)), w1) ->
  operator.resolve_delegation operator ctx (executors w1) = (Returned false, h2) ->
  execute_or_delegate_operator env operator_uri request_params w =
  let calls3 := ((calls w1 ++ [call_resolve_delegation]) ++ [call_execute])%list in
  match operator.execute operator ctx h2 with
  | (Returned raw_result, h3) =>
      (Returned (ExecutionResult.__init__ (ExecutionResult.RValue raw_result)
                   (Some executor) None None false),
       {| executors := h3; calls := calls3 |})
  | (Raised e, h3) =>
      if is_Exception e
      then (Returned (ExecutionResult.__init__ (ExecutionResult.RValue VNone)
                        (Some executor) (Some (format_exc e)) None false),
            {| executors := h3; calls := calls3 |})
      else (Raised e, {| executors := h3; calls := calls3 |})
  end.
Proof.
  intros Hprep Hdel.
  unfold execute_or_delegate_operator, bind at 1. rewrite Hprep.
  unfold bind at 1, calling at 1. rewrite Hdel. simpl.
  unfold try_except, bind, calling, ret, run_sync_task. simpl.
  destruct (operator.execute_is_coroutine operator);
    destruct (operator.execute operator ctx h2) as [[raw_result | e] h3]; simpl;
    try reflexivity; destruct (is_Exception e); reflexivity.
Qed.

(** C6.  When preparation succeeded and [resolve_delegation(ctx)] returns
    true, the calls the coordinator makes are exactly: the two registry
    lookups, secret resolution, [resolve_input], [resolve_delegation] and
    [queue_operation]; [execute] is never among them.  When the queue
    accepts the operation and the queued document carries its execution
    context, the result has [delegated = True], no error, and the
    document's attributes with the context serialized. *)
Theorem delegation_never_executes :
  forall env operator_uri request_params w operator executor ctx w1 h2,
    prepare_operator_executor env operator_uri request_params w =
      (Returned (inr (operator, executor, ctx)), w1) ->
    operator.resolve_delegation operator ctx (executors w1) = (Returned true, h2) ->
    let run := execute_or_delegate_operator env operator_uri request_params w in
    calls (snd run) =
      (calls w ++ [call_operator_exists operator_uri; call_get_operator operator_uri;
                   call_resolve_secret_values; call_resolve_input;
                   call_resolve_delegation; call_queue_operation])%list /\
    (call_execute ∉
       [call_operator_exists operator_uri; call_get_operator operator_uri;
        call_resolve_secret_values; call_resolve_input;
        call_resolve_delegation; call_queue_operation]) /\
    (forall op c,
        delegated.queue_operation (DelegatedOperationService env) (operator.uri operator)
          (ExecutionContext.serialize ctx) (operator.delegation_target operator) =
          Returned op ->
        dict_lookup "context" (delegated.__dict__ op) = Some (ExecutionResult.AContext c) ->
        fst run =
        Returned
          {| ExecutionResult.result :=
               ExecutionResult.RAttrs
                 (dict_set "context"
                    (ExecutionResult.AValue (ExecutionContext.serialize c))
                    (delegated.__dict__ op));
             ExecutionResult.executor := Some executor;
             ExecutionResult.error := None;
             ExecutionResult.validation_ctx := None;
             ExecutionResult.delegated := true |}).
Proof.
  intros env operator_uri request_params w operator executor ctx w1 h2 Hprep Hdel run.
  subst run. rewrite (coordinator_delegating _ _ _ _ _ _ _ _ _ Hprep Hdel).
  destruct (prepare_triple _ _ _ _ _ _ _ _ Hprep) as (Hcalls & _).
  split; [| split].
  - cbv zeta.
    destruct (delegated.queue_operation _ _ _ _) as [op | e]; simpl.
    + destruct (serialize_context_attr _) as [result | e]; simpl;
        [| destruct (is_Exception e); simpl];
        rewrite Hcalls, <- !app_assoc; reflexivity.
    + destruct (is_Exception e); simpl; rewrite Hcalls, <- !app_assoc; reflexivity.
  - intros Hin. repeat (apply elem_of_cons in Hin as [Hin | Hin]; [discriminate |]).
    by apply elem_of_nil in Hin.
  - intros op c Hq Hc. cbv zeta. rewrite Hq.
    unfold serialize_context_attr. rewrite Hc. reflexivity.
Qed.

Lemma delegation_never_executes_witness :
  let run :=
    execute_or_delegate_operator (sample.env sample.queue_up) "ns/delegating"
      [("params", VDict [])] sample.world0 in
  calls (snd run) =
    [call_operator_exists "ns/delegating"; call_get_operator "ns/delegating";
     call_resolve_secret_values; call_resolve_input;
     call_resolve_delegation; call_queue_operation].
Proof.
  intros run.
  refine (proj1 (delegation_never_executes (sample.env sample.queue_up) "ns/delegating"
                   [("params", VDict [])] sample.world0 sample.delegating 0
                   (ExecutionContext.__init__ sample.no_secrets
                      (Some [("params", VDict [])]) (Some 0))
                   {| executors := [Executor.__init__ None None];
                      calls := [call_operator_exists "ns/delegating";
                                call_get_operator "ns/delegating";
                                call_resolve_secret_values; call_resolve_input] |}
                   [Executor.__init__ None None] _ _)); reflexivity.
Defined.

(** C7.  Every result the coordinator returns with [delegated = True] has
    no error.  When preparation succeeded, the operator asked to be
    delegated and queueing raises an exception, the coordinator returns a
    result that is not delegated and whose error is the formatted
    traceback, which is not empty. *)
Theorem delegated_result_has_no_error :
  (forall env operator_uri request_params w r w',
      execute_or_delegate_operator env operator_uri request_params w = (Returned r, w') ->
      ExecutionResult.delegated r = true ->
      ExecutionResult.error r = None) /\
  (forall env operator_uri request_params w operator executor ctx w1 h2 e,
      prepare_operator_executor env operator_uri request_params w =
        (Returned (inr (operator, executor, ctx)), w1) ->
      operator.resolve_delegation operator ctx (executors w1) = (Returned true, h2) ->
      delegated.queue_operation (DelegatedOperationService env) (operator.uri operator)
        (ExecutionContext.serialize ctx) (operator.delegation_target operator) =
        Raised e ->
      is_Exception e = true ->
      exists r,
        fst (execute_or_delegate_operator env operator_uri request_params w) = Returned r /\
        ExecutionResult.delegated r = false /\
        ExecutionResult.error r = Some (format_exc e) /\
        format_exc e <> "").
Proof.
  split.
  - intros env operator_uri request_params w r w' Hrun Hdelegated.
    destruct (prepare_operator_executor env operator_uri request_params w)
      as [[[envelope | [[operator executor] ctx]] | e] w1] eqn:Hprep.
    + unfold execute_or_delegate_operator, bind in Hrun. rewrite Hprep in Hrun.
      unfold lift_outcome, raise in Hrun.
      destruct (ExecutionResult.to_exception envelope); discriminate.
    + destruct (operator.resolve_delegation operator ctx (executors w1))
        as [[[] | e] h2] eqn:Hdel.
      * rewrite (coordinator_delegating _ _ _ _ _ _ _ _ _ Hprep Hdel) in Hrun.
        cbv zeta in Hrun.
        repeat run_step Hrun; inversion Hrun; subst; simpl in *;
          first [reflexivity | discriminate].
      * rewrite (coordinator_running _ _ _ _ _ _ _ _ _ Hprep Hdel) in Hrun.
        cbv zeta in Hrun.
        repeat run_step Hrun; inversion Hrun; subst; simpl in *; discriminate.
      * unfold execute_or_delegate_operator, bind at 1 in Hrun. rewrite Hprep in Hrun.
        unfold bind at 1, calling at 1 in Hrun. rewrite Hdel in Hrun. discriminate.
    + unfold execute_or_delegate_operator, bind in Hrun. rewrite Hprep in Hrun.
      discriminate.
  - intros env operator_uri request_params w operator executor ctx w1 h2 e
      Hprep Hdel Hq He.
    rewrite (coordinator_delegating _ _ _ _ _ _ _ _ _ Hprep Hdel).
    cbv zeta. rewrite Hq, He. simpl.
    eexists. repeat split. discriminate.
Qed.

Lemma delegated_result_has_no_error_witness :
  exists r,
    fst (execute_or_delegate_operator (sample.env sample.queue_down) "ns/delegating"
           [("params", VDict [])] sample.world0) = Returned r /\
    ExecutionResult.delegated r = false /\
    ExecutionResult.error r =
      Some (format_exc (mk_exn (OtherException "ConnectionError") "queue unavailable")) /\
    format_exc (mk_exn (OtherException "ConnectionError") "queue unavailable") <> "".
Proof.
  refine (proj2 delegated_result_has_no_error (sample.env sample.queue_down)
            "ns/delegating" [("params", VDict [])] sample.world0 sample.delegating 0
            (ExecutionContext.__init__ sample.no_secrets
               (Some [("params", VDict [])]) (Some 0))
            {| executors := [Executor.__init__ None None];
               calls := [call_operator_exists "ns/delegating";
                         call_get_operator "ns/delegating";
                         call_resolve_secret_values; call_resolve_input] |}
            [Executor.__init__ None None]
            (mk_exn (OtherException "ConnectionError") "queue unavailable") _ _ _ _);
    reflexivity.
Defined.







(* ===================================================================== *)
(** * Further properties: executors and execution contexts *)
(* ===================================================================== *)

Lemma for_each_cons {T A} (body : A -> St T unit) x l :
  for_each body (x :: l) = (body x ;;; for_each body l).
Proof. reflexivity. Qed.

(** One [trigger] on a context whose executor is in the store. *)
Lemma context_trigger_run self l ex operator_name params (h : heap) :
  ExecutionContext.executor self = Some l ->
  h !! l = Some ex ->
  ExecutionContext.trigger self operator_name params h =
  (Returned (message.Build_GeneratedMessage message.SUCCESS "InvocationRequest"
               (InvocationRequest.__init__ operator_name params)),
   <[l := {| Executor._requests :=
               Executor._requests ex ++ [InvocationRequest.__init__ operator_name params];
             Executor._logs := Executor._logs ex |}]> h).
Proof.
  intros Hex Hl. unfold ExecutionContext.trigger, Executor.trigger.
  by rewrite Hex, Hl.
Qed.

(** X1.  Requests accumulate in trigger order.  A sequence of [trigger]
    calls on a context whose executor is in the store all succeed, and
    afterwards that executor holds its earlier requests followed by one
    request per call, in call order, with its logs untouched; every other
    executor is as before; and [to_json] lists the requests in that order. *)
Theorem triggers_accumulate_in_order :
  forall self l ex (h : heap) (reqs : list (string * value)),
    ExecutionContext.executor self = Some l ->
    h !! l = Some ex ->
    let run :=
      for_each (fun r => ExecutionContext.trigger self (fst r) (snd r) ;;; ret tt) reqs h in
    let ex' :=
      {| Executor._requests :=
           Executor._requests ex
           ++ map (fun r => InvocationRequest.__init__ (fst r) (snd r)) reqs;
         Executor._logs := Executor._logs ex |} in
    run = (Returned tt, <[l := ex']> h) /\
    (forall l', l' <> l -> snd run !! l' = h !! l') /\
    Executor.to_json ex' =
      VDict [("requests",
              VList (map InvocationRequest.to_json (Executor._requests ex)
                     ++ map (fun r =>
                               VDict [("operator_uri", VStr (fst r));
                                      ("params",
                                       if truthy (snd r) then snd r else VDict [])])
                          reqs));
             ("logs", VList (Executor._logs ex))].
Proof.
  intros self l ex h reqs Hex. revert ex h.
  induction reqs as [| [name params] reqs IH]; intros ex h Hl run ex'.
  - subst run ex'. simpl. rewrite !app_nil_r.
    assert (Hid : <[l := {| Executor._requests := Executor._requests ex;
                            Executor._logs := Executor._logs ex |}]> h = h).
    { destruct ex. by apply list_insert_id. }
    split; [| split].
    + unfold ret. by rewrite Hid.
    + done.
    + reflexivity.
  - assert (Hlt : l < length h) by (by eapply lookup_lt_Some).
    set (inv_req := InvocationRequest.__init__ name params).
    set (ex1 := {| Executor._requests := Executor._requests ex ++ [inv_req];
                   Executor._logs := Executor._logs ex |}).
    specialize (IH ex1 (<[l := ex1]> h)).
    rewrite list_lookup_insert_eq in IH by exact Hlt.
    destruct (IH eq_refl) as (Hrun & _ & Hjson).
    assert (Hstep : run = (Returned tt, <[l := ex']> h)).
    { subst run. rewrite for_each_cons. unfold bind at 1. unfold bind at 1.
      cbn [fst snd]. rewrite (context_trigger_run self l ex name params h Hex Hl).
      fold inv_req. fold ex1. unfold ret at 1.
      rewrite Hrun. f_equal. rewrite list_insert_insert_eq.
      subst ex' ex1. cbn [Executor._requests Executor._logs map].
      by rewrite <- app_assoc. }
    split; [| split].
    + exact Hstep.
    + intros l' Hne. rewrite Hstep. simpl. by rewrite list_lookup_insert_ne.
    + subst ex'. unfold Executor.to_json.
      cbn [Executor._requests Executor._logs].
      by rewrite List.map_app, List.map_map.
Qed.

Lemma triggers_accumulate_in_order_witness :
  for_each
    (fun r =>
       ExecutionContext.trigger
         (ExecutionContext.__init__ sample.no_secrets None (Some 0)) (fst r) (snd r) ;;;
       ret tt)
    [("reload_dataset", VNone); ("set_view", VDict [("name", VStr "v")])]
    [Executor.__init__ None None] =
  (Returned tt,
   [{| Executor._requests :=
         [InvocationRequest.__init__ "reload_dataset" VNone;
          InvocationRequest.__init__ "set_view" (VDict [("name", VStr "v")])];
       Executor._logs := [] |}]).
Proof.
  apply (proj1 (triggers_accumulate_in_order
                  (ExecutionContext.__init__ sample.no_secrets None (Some 0)) 0
                  (Executor.__init__ None None) [Executor.__init__ None None]
                  [("reload_dataset", VNone); ("set_view", VDict [("name", VStr "v")])]
                  eq_refl eq_refl)).
Defined.

(** X2.  [ExecutionContext.log] does not write to the executor's logs: on
    a context with an executor it appends the request
    [console_log {"message": message}] and leaves [_logs] as it was, and
    without an executor it raises the "No executor available" error;
    [Executor.log] is what appends to [_logs], leaving the requests. *)
Theorem context_log_is_a_console_log_request :
  (forall self msg h,
      ExecutionContext.executor self = None ->
      ExecutionContext.log self msg h =
      (Raised (mk_exn ValueError "No executor available"), h)) /\
  (forall self l ex msg (h : heap),
      ExecutionContext.executor self = Some l ->
      h !! l = Some ex ->
      ExecutionContext.log self msg h =
      (Returned tt,
       <[l := {| Executor._requests :=
                   Executor._requests ex
                   ++ [{| InvocationRequest.operator_uri := "console_log";
                          InvocationRequest.params := VDict [("message", msg)] |}];
                 Executor._logs := Executor._logs ex |}]> h)) /\
  (forall l ex msg (h : heap),
      h !! l = Some ex ->
      Executor.log l msg h =
      (Returned tt,
       <[l := {| Executor._requests := Executor._requests ex;
                 Executor._logs := Executor._logs ex ++ [msg] |}]> h)).
Proof.
  repeat split.
  - intros self msg h Hnone.
    unfold ExecutionContext.log, ExecutionContext.trigger, bind. by rewrite Hnone.
  - intros self l ex msg h Hex Hl.
    unfold ExecutionContext.log, ExecutionContext.trigger, Executor.trigger, bind.
    by rewrite Hex, Hl.
  - intros l ex msg h Hl. unfold Executor.log. by rewrite Hl.
Qed.

Lemma context_log_is_a_console_log_request_witness :
  ExecutionContext.log (ExecutionContext.__init__ sample.no_secrets None None)
    (VStr "hello") [] =
  (Raised (mk_exn ValueError "No executor available"), []).
Proof.
  apply (proj1 context_log_is_a_console_log_request
           (ExecutionContext.__init__ sample.no_secrets None None) (VStr "hello") []
           eq_refl).
Defined.





(** An operator the registry returns is one it says exists. *)
Lemma get_operator_exists registry operator_uri operator :
  registry.get_operator registry operator_uri = Some operator ->
  registry.operator_exists registry operator_uri = true.
Proof.
  unfold registry.get_operator, registry.operator_exists. intros Hfind.
  apply find_some in Hfind as [Hin Huri].
  apply existsb_exists. eauto.
Qed.



(** X5.  Serializing a context and building a context again from the
    serialized request parameters gives back the same request parameters
    and the same params, hence the same serialization, also after secrets
    were resolved; the serialization holds the two entries
    ["request_params"] and ["params"] only, so secrets and the executor do
    not travel with it, and the rebuilt context starts without secrets.
    An absent and an empty [request_params] give the same context. *)
Theorem serialize_round_trip :
  forall client client' request_params executor executor' keys,
    let ctx0 := ExecutionContext.__init__ client request_params executor in
    let ctx := snd (ExecutionContext.resolve_secret_values keys ctx0) in
    let rebuilt :=
      ExecutionContext.__init__ client'
        (match ExecutionContext.serialize ctx with
         | VDict d =>
             match dict_lookup "request_params" d with
             | Some (VDict request_params) => Some request_params
             | _ => None
             end
         | _ => None
         end) executor' in
    ExecutionContext.serialize ctx =
      VDict [("request_params", VDict (ExecutionContext.request_params ctx0));
             ("params", ExecutionContext.params ctx0)] /\
    ExecutionContext.request_params rebuilt = ExecutionContext.request_params ctx /\
    ExecutionContext.params rebuilt = ExecutionContext.params ctx /\
    ExecutionContext.serialize rebuilt = ExecutionContext.serialize ctx /\
    ExecutionContext._secrets rebuilt = ∅ /\
    ExecutionContext.executor rebuilt = executor' /\
    ExecutionContext.__init__ client None executor =
      ExecutionContext.__init__ client (Some []) executor.
Proof.
  intros client client' request_params executor executor' keys ctx0 ctx rebuilt.
  destruct (resolve_secret_values_frame keys ctx0) as (Hrp & Hp & _ & _).
  fold ctx in Hrp, Hp.
  assert (Hser : ExecutionContext.serialize ctx =
                 VDict [("request_params", VDict (ExecutionContext.request_params ctx0));
                        ("params", ExecutionContext.params ctx0)]).
  { unfold ExecutionContext.serialize. by rewrite Hrp, Hp. }
  assert (Hrebuilt : rebuilt =
            ExecutionContext.__init__ client'
              (Some (ExecutionContext.request_params ctx0)) executor').
  { subst rebuilt. by rewrite Hser. }
  assert (Hrp' : ExecutionContext.request_params rebuilt =
                 ExecutionContext.request_params ctx0).
  { rewrite Hrebuilt. subst ctx0. by destruct request_params as [[| x rest] |]. }
  assert (Hp' : ExecutionContext.params rebuilt = ExecutionContext.params ctx0).
  { rewrite Hrebuilt. subst ctx0. by destruct request_params as [[| x rest] |]. }
  split; [exact Hser |].
  split; [by rewrite Hrp |].
  split; [by rewrite Hp |].
  split; [rewrite Hser; unfold ExecutionContext.serialize; by rewrite Hrp', Hp' |].
  split; [by rewrite Hrebuilt |].
  split; [by rewrite Hrebuilt | reflexivity].
Qed.

(* ===================================================================== *)
(** * Further properties: the validation engine *)
(* ===================================================================== *)

(** X6.  Validation is append-only and blind to what was accumulated: for
    a given context, path, schema node and value there are one outcome and
    one list of new errors such that, whatever errors the context already
    holds, [validate_property] ends with that outcome and leaves the
    context as it was except that the new errors follow the old ones. *)
Theorem validation_only_appends :
  forall path property value self,
  exists o new,
    forall errs,
      ValidationContext.validate_property path property value
        (ValidationContext.set_errors errs self) =
      (o, ValidationContext.set_errors (errs ++ new) self).
Proof.
  intros path property value self.
  apply framed_validate_property.
Qed.

(** ** Which exceptions validation can raise *)

Lemma raises_only_ret {A} Q (a : A) : raises_only Q (ret a).
Proof. intros self e s H. discriminate H. Qed.

Lemma raises_only_bind {A B} Q (m : ValidationContext.V A)
    (k : A -> ValidationContext.V B) :
  raises_only Q m -> (forall a, raises_only Q (k a)) -> raises_only Q (bind m k).
Proof.
  intros Hm Hk self e s. unfold bind.
  destruct (m self) as [[a | e'] s'] eqn:Hrun.
  - apply Hk.
  - intros [= <- <-]. by eapply Hm.
Qed.

Lemma raises_only_for_each {A} Q (body : A -> ValidationContext.V unit) l :
  Forall (fun x => raises_only Q (body x)) l -> raises_only Q (for_each body l).
Proof.
  induction 1 as [| x l Hx Hl IH]; simpl.
  - apply raises_only_ret.
  - apply raises_only_bind; [exact Hx | intros _; exact IH].
Qed.

Lemma raises_only_for_each_index {A} Q (body : nat -> A -> ValidationContext.V unit) l :
  (forall i x, raises_only Q (body i x)) -> forall i, raises_only Q (for_each_index body i l).
Proof.
  intros Hbody. induction l as [| x l IH]; intros i; simpl.
  - apply raises_only_ret.
  - apply raises_only_bind; [apply Hbody | intros _; apply IH].
Qed.

Lemma raises_only_add_error_if_any Q o :
  raises_only Q (ValidationContext.add_error_if_any o).
Proof.
  intros self e s. destruct o as [error |]; simpl; [| discriminate].
  unfold ValidationContext.add_error.
  destruct (_ && _); discriminate.
Qed.

Lemma raises_only_value_get value name :
  is_None value = false ->
  raises_only get_on_non_dict (ValidationContext.value_get value name).
Proof.
  intros Hpresent self e s Hrun. exists value. split; [exact Hpresent |].
  destruct value; simpl in Hrun; try discriminate;
    inversion Hrun; subst; (split; [intros d; discriminate | reflexivity]).
Qed.

Lemma raises_only_validate_node t :
  forall path property value,
    raises_only get_on_non_dict
      (ValidationContext.validate_node t path property value).
Proof.
  induction t as [values | properties IH | element_type IH | class_name]
    using type_induction; intros path property value; simpl;
    destruct (types.invalid property); try apply raises_only_ret;
    destruct (types.required property && is_None value); try apply raises_only_ret;
    destruct (is_None value) eqn:Hnone; simpl; try apply raises_only_ret.
  - unfold ValidationContext.validate_enum_values.
    destruct (negb _); apply raises_only_ret.
  - apply raises_only_bind; [| intros _; apply raises_only_ret].
    apply raises_only_for_each.
    induction IH as [| [name child] rest Hchild _ IHrest]; constructor; [| exact IHrest].
    apply raises_only_bind; [by apply raises_only_value_get |].
    intros a. apply raises_only_bind; [apply Hchild | apply raises_only_add_error_if_any].
  - destruct value; try apply raises_only_ret.
    apply raises_only_bind; [| intros _; apply raises_only_ret].
    apply raises_only_for_each_index. intros i item.
    apply raises_only_bind; [apply IH | apply raises_only_add_error_if_any].
  - unfold ValidationContext.validate_primitive_named.
    repeat (match goal with |- raises_only _ (if ?b then _ else _) => destruct b end);
      apply raises_only_ret.
Qed.

(** X7.  The only exception validation can raise is the [AttributeError]
    of calling [get] on a present value that is not a dictionary: whenever
    [validate_property], or the constructor of [ValidationContext], raises,
    the exception is ["'<type>' object has no attribute 'get'"] for the
    type of some such value. *)
Theorem validation_raises_only_get_attribute_error :
  (forall path property value self e s,
      ValidationContext.validate_property path property value self = (Raised e, s) ->
      get_on_non_dict e) /\
  (forall ctx inputs_property operator e,
      ValidationContext.__init__ ctx inputs_property operator = Raised e ->
      get_on_non_dict e).
Proof.
  split.
  - intros path property value self e s. apply raises_only_validate_node.
  - intros ctx inputs_property operator e.
    unfold ValidationContext.__init__.
    destruct inputs_property as [p |]; [| discriminate].
    destruct (ValidationContext._validate _) as [[errs | e'] s] eqn:Hrun; [discriminate |].
    intros [= <-]. revert Hrun.
    unfold ValidationContext._validate, bind at 1, get_state. simpl.
    apply raises_only_bind; [apply raises_only_validate_node |].
    intros o. apply raises_only_bind; [apply raises_only_add_error_if_any |].
    intros _ self e0 s0 H. discriminate H.
Qed.

Lemma validation_raises_only_get_attribute_error_witness :
  get_on_non_dict (no_attribute "int" "get").
Proof.
  apply (proj1 validation_raises_only_get_attribute_error ""
           sample.say_hello_inputs (VInt 5) (sample.validation_ctx (VInt 5) false)
           (no_attribute "int" "get") (sample.validation_ctx (VInt 5) false)).
  reflexivity.
Defined.

(** A loop whose every turn returns and leaves the state alone does so too. *)
Lemma for_each_idle {T A} (body : A -> St T unit) l s :
  Forall (fun x => body x s = (Returned tt, s)) l ->
  for_each body l s = (Returned tt, s).
Proof.
  induction 1 as [| x l Hx Hl IH]; [reflexivity |].
  rewrite for_each_cons. unfold bind. by rewrite Hx.
Qed.

Lemma for_each_index_idle {T A} (body : nat -> A -> St T unit) l s :
  (forall i, Forall (fun x => body i x s = (Returned tt, s)) l) ->
  forall i, for_each_index body i l s = (Returned tt, s).
Proof.
  induction l as [| x l IH]; intros Hall i; [reflexivity |].
  simpl. unfold bind.
  pose proof (Hall i) as Hi. inversion Hi as [| ? ? Hx _]; subst.
  rewrite Hx. apply IH. intros j. specialize (Hall j). by inversion Hall.
Qed.

Lemma conforming_node_passes t :
  forall path property value self,
    conforms_node t property value = true ->
    ValidationContext.validate_node t path property value self = (Returned None, self).
Proof.
  induction t as [values | properties IH | element_type IH | class_name]
    using type_induction; intros path property value self Hok; simpl in *;
    apply andb_prop in Hok as [Hvalid Hok];
    apply negb_true_iff in Hvalid; rewrite Hvalid.
  - destruct value; simpl in *;
      try (apply negb_true_iff in Hok; rewrite Hok; reflexivity);
      rewrite andb_false_r; simpl;
      unfold ValidationContext.validate_enum_values; by rewrite Hok.
  - destruct value as [| | | | | |items]; simpl in *; try discriminate;
      try (apply negb_true_iff in Hok; rewrite Hok; reflexivity).
    rewrite andb_false_r. unfold bind.
    rewrite for_each_idle; [reflexivity |].
    induction IH as [| [name child] rest Hchild _ IHrest]; constructor.
    + simpl in Hok. apply andb_prop in Hok as [Hc _].
      unfold bind. simpl. simpl in Hchild.
      by rewrite (Hchild _ _ _ _ Hc).
    + simpl in Hok. apply andb_prop in Hok as [_ Hrest]. by apply IHrest.
  - destruct value as [| | | | |items |]; simpl in *; try discriminate;
      try (apply negb_true_iff in Hok; rewrite Hok; reflexivity).
    rewrite andb_false_r. unfold bind.
    rewrite for_each_index_idle; [reflexivity |].
    intros i. apply Forall_forall. intros item Hin.
    assert (Hitem : conforms_node element_type (types.new_Property element_type) item
                    = true).
    { rewrite forallb_forall in Hok. apply Hok. by apply list_elem_of_In. }
    unfold bind. by rewrite (IH _ _ _ _ Hitem).
  - destruct value; simpl in *;
      try (apply negb_true_iff in Hok; rewrite Hok; reflexivity);
      rewrite andb_false_r; simpl;
      unfold ValidationContext.validate_primitive_named; simpl;
      repeat (match goal with
              | |- context [String.eqb class_name ?x] =>
                  let E := fresh "E" in
                  destruct (String.eqb class_name x) eqn:E; rewrite ?E in Hok;
                  simpl in *
              end);
      try discriminate; try reflexivity;
      match goal with
      | H : String.eqb class_name _ = true |- _ =>
          apply String.eqb_eq in H; subst class_name; discriminate
      end.
Qed.

(** X8.  Values that match the schema pass.  If a value conforms to a
    schema node (no node marked invalid on the way, required values
    present, dictionaries under objects, lists under lists, enum members,
    strings, numbers and booleans of the right Python type),
    [validate_property] returns no error, raises nothing and records
    nothing; a context built over conforming params is valid and holds no
    error, whether or not schema validation is disabled. *)
Theorem conforming_values_pass :
  (forall path property value self,
      conforms property value = true ->
      ValidationContext.validate_property path property value self =
      (Returned None, self)) /\
  (forall ctx property operator,
      conforms property (ExecutionContext.params ctx) = true ->
      exists validation_ctx,
        ValidationContext.__init__ ctx (Some property) operator = Returned validation_ctx /\
        ValidationContext.invalid validation_ctx = false /\
        ValidationContext.errors validation_ctx = []).
Proof.
  split.
  - intros path property value self Hok. by apply conforming_node_passes.
  - intros ctx property operator Hok.
    unfold ValidationContext.__init__, ValidationContext._validate, bind, get_state.
    cbn [ValidationContext.params ValidationContext.inputs_property].
    unfold ValidationContext.validate_property.
    rewrite (conforming_node_passes _ _ _ _ _ Hok). simpl.
    eexists. repeat split.
Qed.

Lemma conforming_values_pass_witness :
  ValidationContext.validate_property "" sample.say_hello_inputs
    (VDict [("name", VStr "Ada")]) (sample.validation_ctx VNone false) =
  (Returned None, sample.validation_ctx VNone false).
Proof.
  apply (proj1 conforming_values_pass "" sample.say_hello_inputs
           (VDict [("name", VStr "Ada")]) (sample.validation_ctx VNone false)).
  reflexivity.
Defined.

(** ** What the recorded errors look like *)

Lemma emitted_bind {A B} (m : ValidationContext.V A) (k : A -> ValidationContext.V B) self :
  framed m -> (forall a, framed (k a)) ->
  emitted (bind m k) self =
  (emitted m self
   ++ match result_of m self with
      | Returned a => emitted (k a) self
      | Raised _ => []
      end)%list.
Proof.
  intros Hm Hk.
  destruct (result_of m self) as [a | e] eqn:Hres.
  - by destruct (bind_Returned m k self a Hm Hk Hres) as [_ ->].
  - unfold emitted, result_of, bind in *.
    rewrite (framed_run m _ Hm) in *. simpl in *.
    rewrite result_of_set_errors, emitted_set_errors in *. rewrite Hres. simpl.
    by rewrite app_nil_r.
Qed.

Lemma emitted_for_each {A} (Q : ValidationError.t -> Prop)
    (body : A -> ValidationContext.V unit) l self :
  (forall x, framed (body x)) ->
  Forall (fun x => Forall Q (emitted (body x) self)) l ->
  Forall Q (emitted (for_each body l) self).
Proof.
  intros Hbody. induction 1 as [| x l Hx Hl IH]; [constructor |].
  rewrite for_each_cons, emitted_bind;
    [| apply Hbody | intros _; apply framed_for_each, Forall_forall; auto].
  apply Forall_app. split; [exact Hx |].
  destruct (result_of (body x) self); [exact IH | constructor].
Qed.

Lemma emitted_for_each_index {A} (Q : ValidationError.t -> Prop)
    (body : nat -> A -> ValidationContext.V unit) l self :
  (forall i x, framed (body i x)) ->
  (forall i x, x ∈ l -> Forall Q (emitted (body i x) self)) ->
  forall i, Forall Q (emitted (for_each_index body i l) self).
Proof.
  intros Hbody. induction l as [| x l IH]; intros Hall i; [constructor |].
  simpl. rewrite emitted_bind;
    [| apply Hbody | intros _; by apply framed_for_each_index].
  apply Forall_app. split; [apply Hall; left |].
  destruct (result_of (body i x) self); [| constructor].
  apply IH. intros j y Hy. apply Hall. by right.
Qed.

Lemma validate_node_Object_eq properties path property value :
  ValidationContext.validate_node (types.Object properties) path property value =
  if types.invalid property
  then ret (Some (ValidationError.__init__ (types.error_message property) property path true))
  else if types.required property && is_None value
  then ret (Some (ValidationError.__init__ "Required property" property path false))
  else if negb (is_None value)
  then
    if is_None value
    then ret (Some (ValidationError.__init__ "Invalid object" property path false))
    else (for_each (object_child path value) properties ;;; ret None)
  else ret None.
Proof. reflexivity. Qed.

Lemma validate_node_List_eq element_type path property value :
  ValidationContext.validate_node (types.List element_type) path property value =
  if types.invalid property
  then ret (Some (ValidationError.__init__ (types.error_message property) property path true))
  else if types.required property && is_None value
  then ret (Some (ValidationError.__init__ "Required property" property path false))
  else if negb (is_None value)
  then
    match value with
    | VList items => for_each_index (list_item path element_type) 0 items ;;; ret None
    | _ => ret (Some (ValidationError.__init__ "Invalid list" property path false))
    end
  else ret None.
Proof. reflexivity. Qed.

(** What [add_error_if_any] appends is the error it was given, if any. *)
Lemma emitted_add_error_if_any (Q : ValidationError.t -> Prop) o self :
  (forall e, o = Some e -> Q e) ->
  Forall Q (emitted (ValidationContext.add_error_if_any o) self).
Proof.
  intros Ho. destruct o as [e |]; [| constructor].
  unfold emitted. simpl. unfold ValidationContext.add_error. simpl.
  destruct (_ && _); simpl; [constructor |].
  constructor; [by apply Ho | constructor].
Qed.

(** If every node of the schema satisfies [ok], the errors returned at
    such nodes satisfy [Q] at their path, and [Q] at a child's or an
    element's path gives [Q] at the parent's, then everything validation
    records satisfies [Q] at the path it started from. *)
Lemma emitted_errors_satisfy (ok : types.Property -> bool)
    (Q : string -> ValidationError.t -> Prop) :
  (forall path p v self e,
      ok p = true ->
      fst (ValidationContext.validate_property path p v self) = Returned (Some e) ->
      Q path e) ->
  (forall path name e, Q (path ++ "." ++ name) e -> Q path e) ->
  (forall path i e, Q (path ++ "[" ++ str_of_nat i ++ "]") e -> Q path e) ->
  forall t p path v self,
    all_nodes ok t p = true ->
    Forall (Q path) (emitted (ValidationContext.validate_node t path p v) self).
Proof.
  intros Hret Hchild Hitem.
  induction t as [values | properties IH | element_type IH | class_name]
    using type_induction; intros p path v self Hall.
  - simpl. repeat (match goal with |- context [if ?b then _ else _] => destruct b end);
      try constructor.
    unfold ValidationContext.validate_enum_values. destruct (negb _); constructor.
  - rewrite validate_node_Object_eq.
    repeat (match goal with |- context [if ?b then _ else _] => destruct b end);
      try constructor.
    rewrite emitted_bind;
      [| apply framed_for_each, Forall_forall; intros; apply framed_object_child
       | intros; apply framed_ret].
    apply Forall_app. split; [| destruct (result_of _ _); constructor].
    apply emitted_for_each; [apply framed_object_child |].
    simpl in Hall. apply andb_prop in Hall as [_ Hall].
    induction IH as [| [name child] rest Hc _ IHrest]; constructor.
    + simpl in Hall. apply andb_prop in Hall as [Hok _].
      unfold object_child.
      rewrite emitted_bind;
        [| apply framed_value_get
         | intros; apply framed_bind;
             [apply framed_validate_property | apply framed_add_error_if_any]].
      apply Forall_app. split.
      { destruct v; constructor. }
      destruct (result_of (ValidationContext.value_get v name) self) as [pv | e];
        [| constructor].
      rewrite emitted_bind;
        [| apply framed_validate_property | apply framed_add_error_if_any].
      apply Forall_app. split.
      * eapply Forall_impl; [apply (Hc child (path ++ "." ++ name) pv self Hok) |].
        intros e. apply Hchild.
      * destruct (result_of _ self) as [o |] eqn:Hres; [| constructor].
        apply emitted_add_error_if_any. intros e ->.
        apply (Hchild path name), (Hret _ child pv self).
        { simpl in Hok. destruct (types.type child); simpl in Hok;
            by apply andb_prop in Hok as [? _]. }
        rewrite framed_fst by apply framed_validate_property. exact Hres.
    + simpl in Hall. apply andb_prop in Hall as [_ Hrest]. by apply IHrest.
  - rewrite validate_node_List_eq.
    repeat (match goal with |- context [if ?b then _ else _] => destruct b end);
      try constructor.
    destruct v; try constructor.
    rewrite emitted_bind;
      [| apply framed_for_each_index; intros; apply framed_list_item
       | intros; apply framed_ret].
    apply Forall_app. split; [| destruct (result_of _ _); constructor].
    simpl in Hall. apply andb_prop in Hall as [_ Hall].
    apply emitted_for_each_index; [intros; apply framed_list_item |].
    intros i item _. unfold list_item.
    rewrite emitted_bind;
      [| apply framed_validate_property | apply framed_add_error_if_any].
    apply Forall_app. split.
    + eapply Forall_impl;
        [apply (IH (types.new_Property element_type)
                  (path ++ "[" ++ str_of_nat i ++ "]") item self Hall) |].
      intros e. apply Hitem.
    + destruct (result_of _ self) as [o |] eqn:Hres; [| constructor].
      apply emitted_add_error_if_any. intros e ->.
      apply (Hitem path i), (Hret _ (types.new_Property element_type) item self).
      { destruct element_type; simpl in Hall; by apply andb_prop in Hall as [? _]. }
      rewrite framed_fst by apply framed_validate_property. exact Hres.
  - simpl. repeat (match goal with |- context [if ?b then _ else _] => destruct b end);
      try constructor.
    unfold ValidationContext.validate_primitive_named.
    repeat (match goal with |- context [if ?b then _ else _] => destruct b end);
      constructor.
Qed.

Lemma str_app_nil_r (s : string) : s ++ "" = s.
Proof.
  induction s as [| c s IH]; [reflexivity |].
  change (String c (s ++ "") = String c s). by rewrite IH.
Qed.

Lemma str_app_assoc (a b c : string) : (a ++ b) ++ c = a ++ b ++ c.
Proof.
  induction a as [| x a IH]; [reflexivity |].
  change (String x ((a ++ b) ++ c) = String x (a ++ b ++ c)). by rewrite IH.
Qed.

Lemma all_nodes_true t : forall p, all_nodes (fun _ => true) t p = true.
Proof.
  induction t as [values | properties IH | element_type IH | class_name]
    using type_induction; intros p; simpl; try reflexivity.
  - induction IH as [| [name child] rest Hc _ IHrest]; simpl; [reflexivity |].
    simpl in Hc. by rewrite Hc, IHrest.
  - apply IH.
Qed.

(** X9.  Errors are located under the node they come from: whatever
    [validate_property] records while validating at [path] has a path that
    extends [path], and the error it returns, if any, sits at [path]
    itself; the errors recorded before the call stay in front, unchanged. *)
Theorem errors_are_located_under_the_node :
  forall path property value self,
    let run := ValidationContext.validate_property path property value self in
    exists new,
      ValidationContext.errors (snd run) = (ValidationContext.errors self ++ new)%list /\
      Forall (fun e => exists suffix, ValidationError.path e = path ++ suffix) new /\
      (forall e, fst run = Returned (Some e) -> ValidationError.path e = path).
Proof.
  intros path property value self run.
  exists (emitted (ValidationContext.validate_property path property value) self).
  split; [apply framed_errors, framed_validate_property |].
  split; [| intros e; apply validate_property_path].
  apply (emitted_errors_satisfy (fun _ => true)
           (fun path e => exists suffix, ValidationError.path e = path ++ suffix)).
  - intros path' p v self' e _ He.
    exists "". by rewrite (validate_property_path _ _ _ _ _ He), str_app_nil_r.
  - intros path' name e [suffix ->].
    exists ("." ++ name ++ suffix). by rewrite !str_app_assoc.
  - intros path' i e [suffix ->].
    exists ("[" ++ str_of_nat i ++ "]" ++ suffix). by rewrite !str_app_assoc.
  - apply all_nodes_true.
Qed.

(** An error returned at a node that is not marked invalid is not custom. *)
Lemma returned_error_not_custom path property value self e :
  types.invalid property = false ->
  fst (ValidationContext.validate_property path property value self) = Returned (Some e) ->
  ValidationError.custom e = false.
Proof.
  intros Hvalid. rewrite validate_property_eq, Hvalid.
  destruct (types.required property && is_None value); simpl;
    [by intros [= <-] |].
  destruct (is_None value); simpl; [discriminate |].
  destruct property as [[values | properties | element_type | class_name] r i m]; simpl.
  - unfold ValidationContext.validate_enum, ValidationContext.validate_enum_values.
    simpl. destruct (negb _); simpl; [by intros [= <-] | discriminate].
  - unfold ValidationContext.validate_object. simpl.
    destruct (is_None value); simpl; [by intros [= <-] |].
    unfold bind. destruct (for_each _ _ _) as [[[] | e'] s]; simpl; discriminate.
  - unfold ValidationContext.validate_list. simpl.
    destruct value; simpl; try (by intros [= <-]).
    unfold bind. destruct (for_each_index _ _ _ _) as [[[] | e'] s]; simpl; discriminate.
  - unfold ValidationContext.validate_primitive,
      ValidationContext.validate_primitive_named. simpl.
    repeat (match goal with |- context [if ?b then _ else _] => destruct b end;
            simpl; try (by intros [= <-]); try discriminate).
Qed.

(** Without nodes marked invalid, nothing that validation records is
    custom. *)
Lemma emitted_not_custom path property value self :
  all_nodes (fun p => negb (types.invalid p)) (types.type property) property = true ->
  Forall (fun e => ValidationError.custom e = false)
    (emitted (ValidationContext.validate_property path property value) self).
Proof.
  intros Hall.
  apply (emitted_errors_satisfy (fun p => negb (types.invalid p))
           (fun _ e => ValidationError.custom e = false)); auto.
  intros path' p v self' e Hok. apply returned_error_not_custom.
  by apply negb_true_iff.
Qed.

(** X10.  A schema without nodes marked invalid yields no custom error,
    so disabling schema validation switches validation off altogether for
    it: with the flag set, [validate_property] leaves the context as it
    was, whatever the value, and a context that the constructor builds is
    valid and holds no error.  With the flag clear, every error such a
    schema produces has [custom = False]. *)
Theorem disabled_validation_without_invalid_nodes_records_nothing :
  forall property,
    all_nodes (fun p => negb (types.invalid p)) (types.type property) property = true ->
    (forall path value self,
        ValidationContext.disable_schema_validation self = true ->
        snd (ValidationContext.validate_property path property value self) = self) /\
    (forall ctx operator validation_ctx,
        operator.disable_schema_validation (operator.config operator) = true ->
        ValidationContext.__init__ ctx (Some property) operator = Returned validation_ctx ->
        ValidationContext.invalid validation_ctx = false /\
        ValidationContext.errors validation_ctx = []) /\
    (forall path value self,
        exists new,
          ValidationContext.errors
            (snd (ValidationContext.validate_property path property value self)) =
          (ValidationContext.errors self ++ new)%list /\
          Forall (fun e => ValidationError.custom e = false) new).
Proof.
  intros property Hall.
  assert (Hnone : forall path value self,
             ValidationContext.disable_schema_validation self = true ->
             emitted (ValidationContext.validate_property path property value) self = []).
  { intros path value self Hoff.
    pose proof (emitted_not_custom path property value self Hall) as Hnot.
    assert (Honly : only_custom
              (snd (ValidationContext.validate_property path property value
                      (ValidationContext.set_errors [] self)))).
    { apply (preserves_validate_node _ _ add_error_only_custom path property value
               (ValidationContext.set_errors [] self)).
      split; [exact Hoff | constructor]. }
    unfold only_custom in Honly. fold (emitted
      (ValidationContext.validate_property path property value) self) in Honly.
    destruct (emitted _ self) as [| e rest]; [reflexivity |].
    inversion Hnot; inversion Honly; congruence. }
  split; [| split].
  - intros path value self Hoff.
    rewrite (framed_run _ self (framed_validate_property path property value)).
    simpl. rewrite (Hnone _ _ _ Hoff), app_nil_r. apply set_errors_id.
  - intros ctx operator validation_ctx Hoff.
    unfold ValidationContext.__init__, ValidationContext._validate, bind, get_state.
    cbn [ValidationContext.params ValidationContext.inputs_property].
    match goal with
    | |- context [ValidationContext.validate_property ?p ?pr ?v ?s] =>
        rewrite (framed_run _ s (framed_validate_property p pr v));
        rewrite (Hnone p v s Hoff);
        destruct (result_of (ValidationContext.validate_property p pr v) s)
          as [[e |] | e] eqn:Hres
    end; simpl; [| by intros [= <-] | discriminate].
    rewrite <- framed_fst in Hres by apply framed_validate_property.
    assert (Hc : ValidationError.custom e = false).
    { eapply returned_error_not_custom; [| exact Hres].
      destruct property as [t r i m]. destruct t; simpl in Hall;
        apply andb_prop in Hall as [Hv _]; by apply negb_true_iff in Hv. }
    unfold ValidationContext.add_error. simpl. rewrite Hoff, Hc. simpl.
    by intros [= <-].
  - intros path value self.
    exists (emitted (ValidationContext.validate_property path property value) self).
    split; [apply framed_errors, framed_validate_property |].
    by apply emitted_not_custom.
Qed.

Lemma disabled_validation_without_invalid_nodes_records_nothing_witness :
  snd (ValidationContext.validate_property "" sample.say_hello_inputs (VDict [])
         (sample.validation_ctx (VDict []) true)) =
  sample.validation_ctx (VDict []) true.
Proof.
  apply (proj1 (disabled_validation_without_invalid_nodes_records_nothing
                  sample.say_hello_inputs eq_refl)
           "" (VDict []) (sample.validation_ctx (VDict []) true) eq_refl).
Defined.

(** X11.  List elements cannot be required: [validate_list] validates each
    element as an optional node, so an element that is [None] is never
    reported, whatever the element type; a list of [None]s, the empty list
    included, passes with nothing recorded. *)
Theorem none_elements_are_never_reported :
  forall path property element_type items self,
    types.type property = types.List element_type ->
    Forall (fun item => item = VNone) items ->
    ValidationContext.validate_list path property (VList items) self =
    (Returned None, self).
Proof.
  intros path property element_type items self Ht Hnone.
  rewrite (validate_list_eq _ _ _ _ Ht). unfold bind.
  rewrite for_each_index_idle; [reflexivity |].
  intros i. eapply Forall_impl; [exact Hnone |].
  intros item ->. unfold list_item, bind.
  rewrite validate_property_eq. reflexivity.
Qed.

Lemma none_elements_are_never_reported_witness :
  ValidationContext.validate_list "" (sample.property (types.List sample.Number) true)
    (VList [VNone; VNone]) (sample.validation_ctx VNone false) =
  (Returned None, sample.validation_ctx VNone false).
Proof.
  apply (none_elements_are_never_reported ""
           (sample.property (types.List sample.Number) true) sample.Number
           [VNone; VNone] (sample.validation_ctx VNone false) eq_refl).
  repeat constructor.
Defined.

(** [==] holds between a string, number or boolean and itself. *)
Lemma py_eq_refl_scalar v :
  match v with VStr _ | VInt _ | VFloat _ | VBool _ => py_eq v v = true | _ => True end.
Proof.
  destruct v; simpl; try exact I.
  - apply Qeq_bool_iff. reflexivity.
  - apply Qeq_bool_iff. reflexivity.
  - apply Qeq_bool_iff. reflexivity.
  - apply String.eqb_refl.
Qed.

(** X12.  Enum validation accepts every declared string, number or boolean
    and rejects exactly the present values that [in] does not find among
    the declared ones: on a node of enum type that is not marked invalid, a
    declared scalar value gives no error, and a present value gives the
    "Invalid enum value" error at the node's path if and only if it is not
    [in] the values; in both cases nothing is recorded. *)
Theorem enum_accepts_declared_values :
  forall path values required message value self,
    let property := types.Build_Property (types.Enum values) required false message in
    (value ∈ values ->
     match value with VStr _ | VInt _ | VFloat _ | VBool _ => True | _ => False end ->
     ValidationContext.validate_property path property value self = (Returned None, self)) /\
    (is_None value = false ->
     ValidationContext.validate_property path property value self =
     (Returned (if py_in value values then None
                else Some (ValidationError.__init__ "Invalid enum value" property path
                             false)),
      self)).
Proof.
  intros path values required message value self property.
  assert (Hpresent : is_None value = false ->
            ValidationContext.validate_property path property value self =
            (Returned (if py_in value values then None
                       else Some (ValidationError.__init__ "Invalid enum value" property
                                    path false)), self)).
  { intros Hv. rewrite validate_property_eq. subst property. simpl.
    rewrite Hv, andb_false_r. simpl.
    unfold ValidationContext.validate_enum, ValidationContext.validate_enum_values. simpl.
    by destruct (py_in value values). }
  split; [| exact Hpresent].
  intros Hin Hscalar.
  rewrite Hpresent by (by destruct value).
  replace (py_in value values) with true; [reflexivity |].
  symmetry. unfold py_in. apply existsb_exists. exists value.
  split; [by apply list_elem_of_In |].
  pose proof (py_eq_refl_scalar value) as Hrefl. by destruct value.
Qed.

Lemma enum_accepts_declared_values_witness :
  ValidationContext.validate_property ".color"
    (types.Build_Property (types.Enum [VStr "red"; VStr "green"]) true false "Invalid")
    (VStr "green") (sample.validation_ctx VNone false) =
  (Returned None, sample.validation_ctx VNone false).
Proof.
  apply (proj1 (enum_accepts_declared_values ".color" [VStr "red"; VStr "green"] true
                  "Invalid" (VStr "green") (sample.validation_ctx VNone false))).
  - right. left.
  - exact I.
Defined.

(* ===================================================================== *)
(** * Further properties: the coordinator and the envelope *)
(* ===================================================================== *)

(** X13.  When preparation succeeded and [resolve_delegation(ctx)] returns
    false, the delegation queue is never contacted and [execute] is called
    exactly once, last: the calls are the two registry lookups, secret
    resolution, [resolve_input], [resolve_delegation] and [execute].  When
    [execute] returns, the result holds its return value, no error,
    [delegated = False] and the executor created for this invocation, and
    the store is as [execute] left it. *)
Theorem immediate_execution_never_queues :
  forall env operator_uri request_params w operator executor ctx w1 h2,
    prepare_operator_executor env operator_uri request_params w =
      (Returned (inr (operator, executor, ctx)), w1) ->
    operator.resolve_delegation operator ctx (executors w1) = (Returned false, h2) ->
    let run := execute_or_delegate_operator env operator_uri request_params w in
    calls (snd run) =
      (calls w ++ [call_operator_exists operator_uri; call_get_operator operator_uri;
                   call_resolve_secret_values; call_resolve_input;
                   call_resolve_delegation; call_execute])%list /\
    executors (snd run) = snd (operator.execute operator ctx h2) /\
    executor = length (executors w) /\
    (forall raw_result h3,
        operator.execute operator ctx h2 = (Returned raw_result, h3) ->
        fst run =
        Returned {| ExecutionResult.result := ExecutionResult.RValue raw_result;
                    ExecutionResult.executor := Some executor;
                    ExecutionResult.error := None;
                    ExecutionResult.validation_ctx := None;
                    ExecutionResult.delegated := false |}).
Proof.
  intros env operator_uri request_params w operator executor ctx w1 h2 Hprep Hdel run.
  subst run. rewrite (coordinator_running _ _ _ _ _ _ _ _ _ Hprep Hdel).
  destruct (prepare_triple _ _ _ _ _ _ _ _ Hprep) as (Hcalls & Hfresh & _).
  cbv zeta.
  destruct (operator.execute operator ctx h2) as [[raw_result | e] h3]; simpl.
  - rewrite Hcalls, <- !app_assoc. repeat split; try done.
    by intros ? ? [= <- <-].
  - destruct (is_Exception e); simpl; rewrite Hcalls, <- !app_assoc;
      repeat split; try done; discriminate.
Qed.

Lemma immediate_execution_never_queues_witness :
  let run :=
    execute_or_delegate_operator (sample.env sample.queue_down) "ns/say_hello"
      [("params", VDict [("name", VStr "Ada")])] sample.world0 in
  fst run =
  Returned {| ExecutionResult.result :=
                ExecutionResult.RValue (VDict [("greeting", VStr "Hello, Ada")]);
              ExecutionResult.executor := Some 0;
              ExecutionResult.error := None;
              ExecutionResult.validation_ctx := None;
              ExecutionResult.delegated := false |}.
Proof.
  intros run.
  refine (proj2 (proj2 (proj2
            (immediate_execution_never_queues (sample.env sample.queue_down)
               "ns/say_hello" [("params", VDict [("name", VStr "Ada")])] sample.world0
               sample.say_hello 0
               (ExecutionContext.__init__ sample.no_secrets
                  (Some [("params", VDict [("name", VStr "Ada")])]) (Some 0))
               {| executors := [Executor.__init__ None None];
                  calls := [call_operator_exists "ns/say_hello";
                            call_get_operator "ns/say_hello";
                            call_resolve_secret_values; call_resolve_input] |}
               [Executor.__init__ None None] _ _)))
            (VDict [("greeting", VStr "Hello, Ada")]) [Executor.__init__ None None] _);
    reflexivity.
Defined.

(** X14.  [to_exception] works only on an envelope that carries a
    validation context.  Without one it raises
    [AttributeError("'NoneType' object has no attribute 'invalid'")], and
    no result that the coordinator returns carries one, so [to_exception]
    raises that error on every such result, failed ones included.  With a
    context that is not invalid it returns an [ExecutionError] with the
    envelope's error message unchanged. *)
Theorem to_exception_needs_a_validation_context :
  (forall self,
      ExecutionResult.validation_ctx self = None ->
      ExecutionResult.to_exception self = Raised (no_attribute "NoneType" "invalid")) /\
  (forall env operator_uri request_params w r w',
      execute_or_delegate_operator env operator_uri request_params w = (Returned r, w') ->
      ExecutionResult.validation_ctx r = None /\
      ExecutionResult.to_exception r = Raised (no_attribute "NoneType" "invalid")) /\
  (forall self validation_ctx msg,
      ExecutionResult.validation_ctx self = Some validation_ctx ->
      ValidationContext.invalid validation_ctx = false ->
      ExecutionResult.error self = Some msg ->
      ExecutionResult.to_exception self = Returned (mk_exn ExecutionError msg)).
Proof.
  assert (Hnone : forall self,
             ExecutionResult.validation_ctx self = None ->
             ExecutionResult.to_exception self = Raised (no_attribute "NoneType" "invalid")).
  { intros self H. unfold ExecutionResult.to_exception. by rewrite H. }
  split; [exact Hnone | split].
  - intros env operator_uri request_params w r w' Hrun.
    assert (Hctx : ExecutionResult.validation_ctx r = None); [| by auto].
    destruct (prepare_operator_executor env operator_uri request_params w)
      as [[[envelope | [[operator executor] ctx]] | e] w1] eqn:Hprep.
    + unfold execute_or_delegate_operator, bind in Hrun. rewrite Hprep in Hrun.
      unfold lift_outcome, raise in Hrun.
      destruct (ExecutionResult.to_exception envelope); discriminate.
    + destruct (operator.resolve_delegation operator ctx (executors w1))
        as [[[] | e] h2] eqn:Hdel.
      * rewrite (coordinator_delegating _ _ _ _ _ _ _ _ _ Hprep Hdel) in Hrun.
        cbv zeta in Hrun.
        repeat run_step Hrun; inversion Hrun; subst; reflexivity.
      * rewrite (coordinator_running _ _ _ _ _ _ _ _ _ Hprep Hdel) in Hrun.
        cbv zeta in Hrun.
        repeat run_step Hrun; inversion Hrun; subst; reflexivity.
      * unfold execute_or_delegate_operator, bind at 1 in Hrun. rewrite Hprep in Hrun.
        unfold bind at 1, calling at 1 in Hrun. rewrite Hdel in Hrun. discriminate.
    + unfold execute_or_delegate_operator, bind in Hrun. rewrite Hprep in Hrun.
      discriminate.
  - intros self validation_ctx msg Hctx Hvalid Hmsg.
    unfold ExecutionResult.to_exception. by rewrite Hctx, Hvalid, Hmsg.
Qed.

Lemma to_exception_needs_a_validation_context_witness :
  ExecutionResult.to_exception
    (ExecutionResult.__init__ (ExecutionResult.RValue VNone) (Some 0)
       (Some (format_exc (mk_exn (OtherException "RuntimeError") "boom"))) None false) =
  Raised (no_attribute "NoneType" "invalid").
Proof.
  apply (proj1 to_exception_needs_a_validation_context). reflexivity.
Defined.

(** X15.  [resolve_placement] and [resolve_type] build their context
    without an executor and turn an operator's exception (an instance of
    [Exception]) into a failed envelope instead of raising it:
    [resolve_placement] reports [str(e)], [resolve_type] the formatted
    traceback, both with no executor, no validation context and
    [delegated = False].  So an operator that calls [ctx.trigger] while
    resolving its placement gets the envelope "No executor available" and
    the store is untouched.  An operator unknown to the registry makes
    [resolve_type] raise [ValueError]: that check is outside its [try]. *)
Theorem resolve_placement_and_type_capture_failures :
  (forall env operator request_params h e h',
      operator.resolve_placement operator
        (ExecutionContext.__init__ (PluginSecretsResolver env) (Some request_params) None) h
        = (Raised e, h') ->
      is_Exception e = true ->
      resolve_placement env operator request_params h =
      (Returned (inr {| ExecutionResult.result := ExecutionResult.RValue VNone;
                        ExecutionResult.executor := None;
                        ExecutionResult.error := Some (exn_msg e);
                        ExecutionResult.validation_ctx := None;
                        ExecutionResult.delegated := false |}), h')) /\
  (forall env operator request_params h operator_name params k,
      operator.resolve_placement operator =
        (fun ctx => bind (ExecutionContext.trigger ctx operator_name params) k) ->
      resolve_placement env operator request_params h =
      (Returned (inr {| ExecutionResult.result := ExecutionResult.RValue VNone;
                        ExecutionResult.executor := None;
                        ExecutionResult.error := Some "No executor available";
                        ExecutionResult.validation_ctx := None;
                        ExecutionResult.delegated := false |}), h)) /\
  (forall env registry operator_uri request_params h operator e h',
      registry.get_operator registry operator_uri = Some operator ->
      operator.resolve_type operator
        (ExecutionContext.__init__ (PluginSecretsResolver env) (Some request_params) None)
        (default (VStr "inputs") (dict_lookup "target" request_params)) h
        = (Raised e, h') ->
      is_Exception e = true ->
      resolve_type env registry operator_uri request_params h =
      (Returned (inr {| ExecutionResult.result := ExecutionResult.RValue VNone;
                        ExecutionResult.executor := None;
                        ExecutionResult.error := Some (format_exc e);
                        ExecutionResult.validation_ctx := None;
                        ExecutionResult.delegated := false |}), h')) /\
  (forall env registry operator_uri request_params h,
      registry.operator_exists registry operator_uri = false ->
      resolve_type env registry operator_uri request_params h =
      (Raised (mk_exn ValueError ("Operator '" ++ operator_uri ++ "' does not exist")), h)).
Proof.
  split; [| split; [| split]].
  - intros env operator request_params h e h' Hrun He.
    unfold resolve_placement, try_except, bind. by rewrite Hrun, He.
  - intros env operator request_params h operator_name params k Hbody.
    unfold resolve_placement, try_except, bind. rewrite Hbody. reflexivity.
  - intros env registry operator_uri request_params h operator e h' Hget Hrun He.
    unfold resolve_type. rewrite (get_operator_exists _ _ _ Hget), Hget. simpl.
    unfold try_except, bind.
    match goal with
    | |- context [operator.resolve_type operator ?c ?t h] =>
        change (operator.resolve_type operator c t h)
          with (operator.resolve_type operator
                  (ExecutionContext.__init__ (PluginSecretsResolver env)
                     (Some request_params) None)
                  (default (VStr "inputs") (dict_lookup "target" request_params)) h)
    end.
    by rewrite Hrun, He.
  - intros env registry operator_uri request_params h Hmissing.
    unfold resolve_type. by rewrite Hmissing.
Qed.

Lemma resolve_placement_and_type_capture_failures_witness :
  let eager : operator.Operator :=
    {| operator.uri := "ns/eager";
       operator.config := {| operator.disable_schema_validation := false |};
       operator._plugin_secrets := None;
       operator.delegation_target := VNone;
       operator.resolve_input := fun _ => ret None;
       operator.resolve_delegation := fun _ => ret false;
       operator.execute_is_coroutine := false;
       operator.execute := fun _ => ret VNone;
       operator.resolve_type := fun _ _ => ret None;
       operator.resolve_placement := fun ctx =>
         bind (ExecutionContext.trigger ctx "open_panel" VNone) (fun _ => ret VNone) |} in
  resolve_placement (sample.env sample.queue_up) eager [] [] =
  (Returned (inr {| ExecutionResult.result := ExecutionResult.RValue VNone;
                    ExecutionResult.executor := None;
                    ExecutionResult.error := Some "No executor available";
                    ExecutionResult.validation_ctx := None;
                    ExecutionResult.delegated := false |}), []).
Proof.
  intros eager.
  apply (proj1 (proj2 resolve_placement_and_type_capture_failures)
           (sample.env sample.queue_up) eager [] [] "open_panel" VNone
           (fun _ => ret VNone)).
  reflexivity.
Defined.

(** [dict_set] writes the entry it is asked to and no other, and keeps the
    order of the keys when the key is there. *)
Lemma dict_set_lookup {A} (name : string) (v : A) d k :
  dict_lookup k (dict_set name v d) =
  if String.eqb name k then Some v else dict_lookup k d.
Proof.
  induction d as [| [k' w] d IH]; simpl.
  - reflexivity.
  - destruct (String.eqb k' name) eqn:Hk'; simpl.
    + apply String.eqb_eq in Hk' as ->. by destruct (String.eqb name k).
    + rewrite IH. destruct (String.eqb k' k) eqn:Hkk; [| reflexivity].
      apply String.eqb_eq in Hkk as ->. by rewrite String.eqb_sym, Hk'.
Qed.

Lemma dict_set_keys {A} (name : string) (v : A) d :
  is_Some (dict_lookup name d) -> map fst (dict_set name v d) = map fst d.
Proof.
  induction d as [| [k' w] d IH]; simpl.
  - by intros [? ?].
  - destruct (String.eqb k' name); simpl; [reflexivity |].
    intros H. by rewrite IH.
Qed.

(** X16.  Serializing the context of the queued document touches the
    ["context"] attribute only.  When it succeeds, the ["context"] entry of
    the result is a plain value (the serialized context, or [None] when the
    attribute was falsy), every other attribute reads as before and the
    attributes keep their order.  It fails with [KeyError] exactly when
    the document has no ["context"] attribute. *)
Theorem serialize_context_attr_touches_context_only :
  forall d,
    (forall d',
        serialize_context_attr d = Returned d' ->
        (exists v, dict_lookup "context" d' = Some (ExecutionResult.AValue v) /\
                   match dict_lookup "context" d with
                   | Some (ExecutionResult.AContext c) => v = ExecutionContext.serialize c
                   | _ => v = VNone
                   end) /\
        (forall k, k <> "context" -> dict_lookup k d' = dict_lookup k d) /\
        map fst d' = map fst d) /\
    (serialize_context_attr d = Raised (mk_exn KeyError "'context'") <->
     dict_lookup "context" d = None).
Proof.
  intros d. unfold serialize_context_attr. split.
  - intros d' Hd'.
    destruct (dict_lookup "context" d) as [[v | c] |] eqn:Hctx; [| | discriminate].
    + destruct (truthy v); [discriminate |]. injection Hd' as <-.
      split; [| split].
      * exists VNone. by rewrite dict_set_lookup.
      * intros k Hk. rewrite dict_set_lookup.
        destruct (String.eqb "context" k) eqn:E; [| reflexivity].
        apply String.eqb_eq in E. congruence.
      * apply dict_set_keys. by rewrite Hctx.
    + injection Hd' as <-.
      split; [| split].
      * eexists. by rewrite dict_set_lookup.
      * intros k Hk. rewrite dict_set_lookup.
        destruct (String.eqb "context" k) eqn:E; [| reflexivity].
        apply String.eqb_eq in E. congruence.
      * apply dict_set_keys. by rewrite Hctx.
  - destruct (dict_lookup "context" d) as [[v | c] |]; [| | done].
    + destruct (truthy v); split; discriminate.
    + split; discriminate.
Qed.

Lemma serialize_context_attr_touches_context_only_witness :
  map fst
    [("operator", ExecutionResult.AValue (VStr "ns/op"));
     ("context", ExecutionResult.AValue VNone);
     ("run_state", ExecutionResult.AValue (VStr "queued"))] =
  map fst
    [("operator", ExecutionResult.AValue (VStr "ns/op"));
     ("context", ExecutionResult.AValue (VInt 0));
     ("run_state", ExecutionResult.AValue (VStr "queued"))].
Proof.
  apply (proj1 (serialize_context_attr_touches_context_only
                  [("operator", ExecutionResult.AValue (VStr "ns/op"));
                   ("context", ExecutionResult.AValue (VInt 0));
                   ("run_state", ExecutionResult.AValue (VStr "queued"))])).
  reflexivity.
Defined.

(** X17.  An operator without an input schema is never stopped by
    validation: a context built with no inputs property is valid and holds
    no error, whatever the params; so whenever preparation hands back a
    "Validation error" envelope, the operator's [resolve_input] had
    returned a schema. *)
Theorem no_inputs_means_no_validation_failure :
  (forall ctx operator,
      ValidationContext.__init__ ctx None operator =
      Returned {| ValidationContext.ctx := ctx;
                  ValidationContext.params := ExecutionContext.params ctx;
                  ValidationContext.inputs_property := None;
                  ValidationContext.errors := [];
                  ValidationContext.disable_schema_validation :=
                    operator.disable_schema_validation (operator.config operator);
                  ValidationContext.invalid := false |}) /\
  (forall env operator_uri request_params w envelope w1,
      prepare_operator_executor env operator_uri request_params w =
        (Returned (inl envelope), w1) ->
      exists operator ctx h inputs_property h',
        registry.get_operator (OperatorRegistry env) operator_uri = Some operator /\
        operator.resolve_input operator ctx h = (Returned (Some inputs_property), h')).
Proof.
  split; [reflexivity |].
  intros env operator_uri request_params w envelope w1.
  unfold prepare_operator_executor, bind, calling, on_heap, ret, raise, lift_outcome,
    Executor.new.
  simpl. intros H.
  repeat run_step H.
  match goal with
  | E : ValidationContext.__init__ _ ?inputs _ = Returned ?v,
    Hi : ValidationContext.invalid ?v = true |- _ =>
      destruct inputs as [p |];
        [| simpl in E; injection E as <-; discriminate Hi]
  end.
  match goal with
  | E : (let (_, _) := operator.resolve_input ?o ?c ?h in _) = _ |- _ =>
      destruct (operator.resolve_input o c h) as [o' h'] eqn:Hin;
      inversion E; subst; exists o, c, h, p, h'
  end.
  split; [reflexivity | assumption].
Qed.

Lemma no_inputs_means_no_validation_failure_witness :
  exists operator ctx h inputs_property h',
    registry.get_operator (OperatorRegistry (sample.env sample.queue_up)) "ns/say_hello"
      = Some operator /\
    operator.resolve_input operator ctx h = (Returned (Some inputs_property), h').
Proof.
  apply (proj2 no_inputs_means_no_validation_failure (sample.env sample.queue_up)
           "ns/say_hello" [("params", VDict [])] sample.world0
           (ExecutionResult.__init__ (ExecutionResult.RValue VNone) None
              (Some "Validation error") (Some sample.say_hello_without_name) false)
           {| executors := [Executor.__init__ None None];
              calls := [call_operator_exists "ns/say_hello";
                        call_get_operator "ns/say_hello";
                        call_resolve_secret_values; call_resolve_input] |}).
  reflexivity.
Defined.

(** X18.  In the JSON of a context that the constructor built, ["invalid"]
    is true exactly when the ["errors"] array is not empty, and that array
    lists the errors in the order they were recorded, each with its four
    fields. *)
Theorem validation_ctx_json_invalid_iff_errors :
  forall ctx inputs_property operator validation_ctx,
    ValidationContext.__init__ ctx inputs_property operator = Returned validation_ctx ->
    ValidationContext.to_json validation_ctx =
    VDict [("invalid",
            VBool (match ValidationContext.errors validation_ctx with
                   | [] => false
                   | _ => true
                   end));
           ("errors",
            VList (map (fun e =>
                          VDict [("reason", VStr (ValidationError.reason e));
                                 ("error_message", VStr (ValidationError.error_message e));
                                 ("path", VStr (ValidationError.path e));
                                 ("custom", VBool (ValidationError.custom e))])
                     (ValidationContext.errors validation_ctx)))].
Proof.
  intros ctx inputs_property operator validation_ctx Hinit.
  unfold ValidationContext.to_json. rewrite (init_invalid _ _ _ _ Hinit).
  by destruct (ValidationContext.errors validation_ctx).
Qed.

Lemma validation_ctx_json_invalid_iff_errors_witness :
  ValidationContext.to_json sample.say_hello_without_name =
  VDict [("invalid", VBool true);
         ("errors",
          VList [VDict [("reason", VStr "Required property");
                        ("error_message", VStr "Invalid property");
                        ("path", VStr ".name");
                        ("custom", VBool false)]])].
Proof.
  apply (validation_ctx_json_invalid_iff_errors
           (ExecutionContext.__init__ sample.no_secrets (Some [("params", VDict [])])
              (Some 0))
           (Some sample.say_hello_inputs) sample.say_hello
           sample.say_hello_without_name).
  reflexivity.
Defined.
